(** * LayoutProvider.ts: the layout-assignment contract of the recycler list

    A shallow embedding of [src/core/dependencies/LayoutProvider.ts]
    ([LayoutProvider] and its specialisation [GridLayoutProvider]) and the
    properties of its discrepancy check, its manager factories and its
    pass-through accessors.

    JavaScript objects are references: the [Dimension] objects, the provider
    objects and the layout managers live in a store and are named by their
    location, so that a write through one reference is seen through every
    other one.  The injected callbacks close over mutable state of the
    caller; that state is the [world] component of the store. *)

From stdpp Require Import base option list strings numbers.
From Stdlib Require Import ZArith Lia.

(** ** Data model *)

(** The source's [number].  The providers never compute with numbers: they
    pass them through and compare them with [!==], which on the finite
    values of the data model is the negation of equality ([NaN], the one
    number that differs from itself, is not a value of the data model).
    Numbers are taken to be integers. *)
Definition number : Type := Z.
Bind Scope Z_scope with number.

(** [string | number], the type token of a view template. *)
Inductive LayoutType : Type :=
| TString (s : string)
| TNumber (n : number).

(** [interface Dimension { height: number; width: number; }] *)
Record Dimension : Type := mkDimension { height : number; width : number }.
Arguments mkDimension (height width)%_Z.

(** [!==] on two numbers. *)
Definition strict_neq (x y : number) : bool := negb (x =? y)%Z.
Arguments strict_neq (x y)%_Z.

(** A reference to an object of the store. *)
Definition loc : Type := nat.
Bind Scope nat_scope with loc.

(** [isHorizontal?: boolean] is used as a condition: an absent flag is
    falsy. *)
Definition truthy (flag : option bool) : bool :=
  match flag with
  | Some b => b
  | None => false
  end.

(** The argument object handed to [new CustomError(...)].  The class itself
    is imported from [../exceptions/CustomError]; the thrown value is
    represented by the two fields it is built from. *)
Record CustomError : Type := mkCustomError { message : string; type : string }.

Section Providers.

(** The caller's own mutable state, which the injected callbacks read and
    may write. *)
Context {W : Type}.

(** [Layout], imported from [../layoutmanager/LayoutManager]; the providers
    only hand [Layout[]] values over to the manager constructors. *)
Context {Layout : Type}.

(** *** The injected callbacks

    A callback runs against the caller's state and leaves a new one.  The
    dimension callback receives a [Dimension] object and writes into it
    (its return type is [void]): it is given the content of the object it is
    handed and returns the content it leaves there.  Callbacks are taken to
    return normally, to write nothing of the store but the object they are
    handed and the caller's own state, and not to call back into the
    provider. *)
Definition GetLayoutTypeForIndex : Type := number -> W -> LayoutType * W.
Definition SetLayoutForType : Type :=
  LayoutType -> Dimension -> number -> W -> Dimension * W.
Definition SetHeightForIndex : Type := number -> number -> W -> number * W.
Definition GetColumnSpanForIndex : Type := number -> W -> number * W.
Definition SetMaxColumnSpan : Type := W -> number * W.

(** The value stored in the private field [_setLayoutForType]: either the
    function the caller passed to [LayoutProvider]'s constructor, or the arrow
    function written in [GridLayoutProvider]'s constructor,
    [(type, dim, index) => this.setComputedLayout(type, dim, index)], which
    captures the object under construction. *)
Inductive DimensionCallback : Type :=
| Injected (f : SetLayoutForType)
| ForwardToSetComputedLayout (self : loc).

(** The three private fields [GridLayoutProvider] adds. *)
Record GridLayoutProviderFields : Type := mkGridFields {
  _setHeightForIndex : SetHeightForIndex;
  _getColumnSpanForIndex : GetColumnSpanForIndex;
  _setMaxColumnSpan : SetMaxColumnSpan
}.

(** A provider object: the four private fields of [LayoutProvider] and, for
    an instance of [GridLayoutProvider], the fields of the subclass. *)
Record LayoutProvider : Type := mkLayoutProvider {
  _setLayoutForType : DimensionCallback;
  _getLayoutTypeForIndex : GetLayoutTypeForIndex;
  _tempDim : loc;
  _lastLayoutManager : option loc;
  gridFields : option GridLayoutProviderFields
}.

(** Modelled from the spec: the classes [WrapGridLayoutManager] and
    [GridLayoutManager] of [../layoutmanager/LayoutManager] are not part of
    the sources.  A manager is represented by the arguments its constructor
    was called with; a wrap-grid manager also keeps the max-bounds hints it
    has been sent, newest first.  Following the spec, [setMaxBounds] is a hint
    the manager records for its own tracking. *)
Record WrapGridLayoutManager : Type := mkWrapGridLayoutManager {
  wg_layoutProvider : loc;
  wg_renderWindowSize : loc;
  wg_isHorizontal : option bool;
  wg_cachedLayouts : option (list Layout);
  wg_maxBounds : list Dimension
}.

Record GridLayoutManager : Type := mkGridLayoutManager {
  g_layoutProvider : loc;
  g_renderWindowSize : loc;
  g_getColumnSpanForIndex : GetColumnSpanForIndex;
  g_maxColumnSpan : number;
  g_cachedLayouts : option (list Layout)
}.

(** The [LayoutManager] handle a factory returns. *)
Inductive LayoutManager : Type :=
| WrapGridRef (m : loc)
| GridRef (m : loc).

(** *** The store *)
Record State : Type := mkState {
  world : W;
  dimensions : list Dimension;
  providers : list LayoutProvider;
  wrapGridManagers : list WrapGridLayoutManager;
  gridManagers : list GridLayoutManager
}.

Definition set_world (w : W) (s : State) : State :=
  mkState w (dimensions s) (providers s) (wrapGridManagers s) (gridManagers s).
Definition set_dimensions (ds : list Dimension) (s : State) : State :=
  mkState (world s) ds (providers s) (wrapGridManagers s) (gridManagers s).
Definition set_providers (ps : list LayoutProvider) (s : State) : State :=
  mkState (world s) (dimensions s) ps (wrapGridManagers s) (gridManagers s).
Definition set_wrapGridManagers (ms : list WrapGridLayoutManager) (s : State) : State :=
  mkState (world s) (dimensions s) (providers s) ms (gridManagers s).
Definition set_gridManagers (ms : list GridLayoutManager) (s : State) : State :=
  mkState (world s) (dimensions s) (providers s) (wrapGridManagers s) ms.

(** *** Outcomes of a call

    A call returns a value, throws, exhausts the call stack (every nested
    call takes a frame; the budget of frames is the [fuel] of the recursive
    definitions below), or is [Stuck] on a reference that names no object,
    which no well-formed store contains. *)
Inductive Outcome (A : Type) : Type :=
| Return (a : A) (s : State)
| Throw (e : CustomError) (s : State)
| StackOverflow
| Stuck.
Arguments Return {A} a s.
Arguments Throw {A} e s.
Arguments StackOverflow {A}.
Arguments Stuck {A}.

Definition M (A : Type) : Type := State -> Outcome A.

Definition ret {A : Type} (a : A) : M A := fun s => Return a s.

Definition bind {A B : Type} (c : M A) (k : A -> M B) : M B :=
  fun s =>
    match c s with
    | Return a s' => k a s'
    | Throw e s' => Throw e s'
    | StackOverflow => StackOverflow
    | Stuck => Stuck
    end.

Definition throw {A : Type} (e : CustomError) : M A := fun s => Throw e s.

Definition stuck {A : Type} : M A := fun _ => Stuck.

Definition of_option {A : Type} (o : option A) : M A :=
  match o with
  | Some a => ret a
  | None => stuck
  end.

Definition gets {A : Type} (proj : State -> A) : M A := fun s => Return (proj s) s.

Definition modify (f : State -> State) : M unit := fun s => Return tt (f s).

Notation "'let*' x ':=' c 'in' k" := (bind c (fun x => k))
  (at level 10, x name, c at level 100, k at level 200, only parsing).

(** Calling an injected callback: it runs against the caller's state. *)
Definition callback {A : Type} (f : W -> A * W) : M A :=
  fun s => let (a, w) := f (world s) in Return a (set_world w s).

(** Reading an object, reading one of its fields, writing it back. *)
Definition getProvider (this : loc) : M LayoutProvider :=
  let* ps := gets providers in of_option (ps !! this).

Definition field {A : Type} (this : loc) (proj : LayoutProvider -> A) : M A :=
  let* p := getProvider this in ret (proj p).

Definition updateProvider (this : loc) (f : LayoutProvider -> LayoutProvider) : M unit :=
  let* p := getProvider this in
  modify (fun s => set_providers (<[this := f p]> (providers s)) s).

Definition readDimension (dim : loc) : M Dimension :=
  let* ds := gets dimensions in of_option (ds !! dim).

Definition writeDimension (dim : loc) (d : Dimension) : M unit :=
  let* _ := readDimension dim in
  modify (fun s => set_dimensions (<[dim := d]> (dimensions s)) s).

(** Allocation of a fresh object: its location is the next free one. *)
Definition newDimension (d : Dimension) : M loc :=
  fun s => Return (length (dimensions s)) (set_dimensions (dimensions s ++ [d]) s).

Definition newProvider (mk : loc -> LayoutProvider) : M loc :=
  fun s =>
    let this := length (providers s) in
    Return this (set_providers (providers s ++ [mk this]) s).

(** Modelled from the spec: the constructors and [setMaxBounds] of the
    layout managers, whose classes are not part of the sources.  A
    constructor stores its arguments; [setMaxBounds] records the dimension it
    is sent as a hint and writes nothing else. *)
Definition new_WrapGridLayoutManager (layoutProvider renderWindowSize : loc)
    (isHorizontal : option bool) (cachedLayouts : option (list Layout)) : M loc :=
  fun s =>
    Return (length (wrapGridManagers s))
      (set_wrapGridManagers
         (wrapGridManagers s ++
            [mkWrapGridLayoutManager layoutProvider renderWindowSize isHorizontal
               cachedLayouts []]) s).

Definition new_GridLayoutManager (layoutProvider renderWindowSize : loc)
    (getColumnSpanForIndex : GetColumnSpanForIndex) (maxColumnSpan : number)
    (cachedLayouts : option (list Layout)) : M loc :=
  fun s =>
    Return (length (gridManagers s))
      (set_gridManagers
         (gridManagers s ++
            [mkGridLayoutManager layoutProvider renderWindowSize
               getColumnSpanForIndex maxColumnSpan cachedLayouts]) s).

Definition recordMaxBounds (d : Dimension) (m : WrapGridLayoutManager) : WrapGridLayoutManager :=
  mkWrapGridLayoutManager (wg_layoutProvider m) (wg_renderWindowSize m)
    (wg_isHorizontal m) (wg_cachedLayouts m) (d :: wg_maxBounds m).

Definition setMaxBounds (manager : loc) (itemDim : loc) : M unit :=
  let* d := readDimension itemDim in
  let* ms := gets wrapGridManagers in
  let* m := of_option (ms !! manager) in
  modify (fun s => set_wrapGridManagers (<[manager := recordMaxBounds d m]> (wrapGridManagers s)) s).

(** ** class LayoutProvider *)

(** [constructor(getLayoutTypeForIndex, setLayoutForType)]: the scratch
    buffer is a fresh [{ height: 0, width: 0 }]; [_lastLayoutManager] is left
    undefined. *)
Definition new_LayoutProvider (getLayoutTypeForIndex : GetLayoutTypeForIndex)
    (setLayoutForType : SetLayoutForType) : M loc :=
  let* tempDim := newDimension (mkDimension 0 0) in
  newProvider (fun _ =>
    mkLayoutProvider (Injected setLayoutForType) getLayoutTypeForIndex tempDim None None).

(** [LayoutProvider.newLayoutManager] *)
Definition LayoutProvider_newLayoutManager (this renderWindowSize : loc)
    (isHorizontal : option bool) (cachedLayouts : option (list Layout)) : M LayoutManager :=
  let* m := new_WrapGridLayoutManager this renderWindowSize isHorizontal cachedLayouts in
  let* _ := updateProvider this (fun p =>
              mkLayoutProvider (_setLayoutForType p) (_getLayoutTypeForIndex p)
                (_tempDim p) (Some m) (gridFields p)) in
  let* last := field this _lastLayoutManager in
  match last with
  | Some m' => ret (WrapGridRef m')
  | None => stuck
  end.

(** [getLayoutTypeForIndex] *)
Definition getLayoutTypeForIndex (this : loc) (index : number) : M LayoutType :=
  let* f := field this _getLayoutTypeForIndex in
  callback (f index).

(** [setComputedLayout]: a call of the function held in [_setLayoutForType].
    When that function is the forwarding closure of a grid provider, the
    call is a nested call of [setComputedLayout] on the captured object. *)
Fixpoint setComputedLayout (fuel : nat) (this : loc) (type : LayoutType)
    (dimension : loc) (index : number) {struct fuel} : M unit :=
  match fuel with
  | O => fun _ => StackOverflow
  | S fuel' =>
      let* f := field this _setLayoutForType in
      match f with
      | Injected setLayoutForType =>
          let* d := readDimension dimension in
          let* d' := callback (setLayoutForType type d index) in
          writeDimension dimension d'
      | ForwardToSetComputedLayout self =>
          setComputedLayout fuel' self type dimension index
      end
  end.

(** [checkDimensionDiscrepancy] *)
Definition checkDimensionDiscrepancy (fuel : nat) (this dimension : loc)
    (type : LayoutType) (index : number) : M bool :=
  let dimension1 := dimension in
  let* tempDim := field this _tempDim in
  let* _ := setComputedLayout fuel this type tempDim index in
  let* dimension2 := field this _tempDim in
  let* last := field this _lastLayoutManager in
  let* _ := match last with
            | Some manager => setMaxBounds manager dimension2
            | None => ret tt
            end in
  let* d1 := readDimension dimension1 in
  let* d2 := readDimension dimension2 in
  ret (strict_neq (height d1) (height d2) || strict_neq (width d1) (width d2)).

(** ** class GridLayoutProvider extends LayoutProvider *)

(** [constructor(getLayoutTypeForIndex, setHeightForIndex,
    getColumnSpanForIndex, setMaxColumnSpan)]: the base constructor is given
    the forwarding closure over the new object. *)
Definition new_GridLayoutProvider (getLayoutTypeForIndex : GetLayoutTypeForIndex)
    (setHeightForIndex : SetHeightForIndex)
    (getColumnSpanForIndex : GetColumnSpanForIndex)
    (setMaxColumnSpan : SetMaxColumnSpan) : M loc :=
  let* tempDim := newDimension (mkDimension 0 0) in
  newProvider (fun this =>
    mkLayoutProvider (ForwardToSetComputedLayout this) getLayoutTypeForIndex tempDim None
      (Some (mkGridFields setHeightForIndex getColumnSpanForIndex setMaxColumnSpan))).

Definition gridField {A : Type} (this : loc) (proj : GridLayoutProviderFields -> A) : M A :=
  let* g := field this gridFields in
  match g with
  | Some fields => ret (proj fields)
  | None => stuck
  end.

Definition NotSupportedException : CustomError :=
  mkCustomError "Horizontal support not available for Grid Layouts" "NotSupportedException".

(** [GridLayoutProvider.newLayoutManager] *)
Definition GridLayoutProvider_newLayoutManager (this renderWindowSize : loc)
    (isHorizontal : option bool) (cachedLayouts : option (list Layout)) : M LayoutManager :=
  if truthy isHorizontal then
    throw NotSupportedException
  else
    let* getColumnSpan := gridField this _getColumnSpanForIndex in
    let* setMax := gridField this _setMaxColumnSpan in
    let* maxSpan := callback setMax in
    let* m := new_GridLayoutManager this renderWindowSize getColumnSpan maxSpan cachedLayouts in
    ret (GridRef m).

(** [provider.newLayoutManager(...)] on a reference of static type
    [BaseLayoutProvider]: the override of the object's class runs. *)
Definition newLayoutManager (this renderWindowSize : loc)
    (isHorizontal : option bool) (cachedLayouts : option (list Layout)) : M LayoutManager :=
  let* g := field this gridFields in
  match g with
  | Some _ => GridLayoutProvider_newLayoutManager this renderWindowSize isHorizontal cachedLayouts
  | None => LayoutProvider_newLayoutManager this renderWindowSize isHorizontal cachedLayouts
  end.

(** [setMaxColumnSpan], [getColumnSpanForIndex], [setHeightForIndex] *)
Definition setMaxColumnSpan (this : loc) : M number :=
  let* f := gridField this _setMaxColumnSpan in
  callback f.

Definition getColumnSpanForIndex (this : loc) (index : number) : M number :=
  let* f := gridField this _getColumnSpanForIndex in
  callback (f index).

Definition setHeightForIndex (this : loc) (height index : number) : M number :=
  let* f := gridField this _setHeightForIndex in
  callback (f height index).

End Providers.

Arguments Return {W Layout A} a s.
Arguments Throw {W Layout A} e s.
Arguments StackOverflow {W Layout A}.
Arguments Stuck {W Layout A}.

(** ** Stores before and after a call *)

Section Stores.
Context {W : Type} {Layout : Type}.
Implicit Types (st : @State W Layout) (p : @LayoutProvider W).

(** The dimension an injected dimension callback leaves in the object it is
    handed, whose content was [d]. *)
Definition computed (f : @SetLayoutForType W) (type : LayoutType) (d : Dimension)
    (index : number) st : Dimension :=
  (f type d index (world st)).1.

(** The store after that call: the object holds what the callback wrote,
    the caller's state is the one the callback left. *)
Definition after_compute (f : @SetLayoutForType W) (type : LayoutType)
    (dim : loc) (d : Dimension) (index : number) st : State :=
  set_dimensions (<[dim := computed f type d index st]> (dimensions st))
    (set_world (f type d index (world st)).2 st).

(** The wrap-grid managers after a discrepancy check: the manager the
    provider created last, if there is one, has recorded one more hint. *)
Definition hinted (d : Dimension) (last : option loc)
    (ms : list (@WrapGridLayoutManager Layout)) : list WrapGridLayoutManager :=
  match last with
  | Some manager => alter (recordMaxBounds d) manager ms
  | None => ms
  end.

(** The provider object [this] is [p], its scratch buffer is allocated, and
    the manager it remembers, if any, is allocated. *)
Definition well_formed st (this : loc) p : Prop :=
  providers st !! this = Some p /\
  is_Some (dimensions st !! _tempDim p) /\
  match _lastLayoutManager p with
  | Some manager => is_Some (wrapGridManagers st !! manager)
  | None => True
  end.

End Stores.

(** ** A caller checking the same dimension again and again

    [n] successive calls of [checkDimensionDiscrepancy] with the same
    arguments; the answers are collected in call order. *)
Fixpoint checkRepeatedly {W Layout : Type} (n fuel : nat) (this dimension : loc)
    (type : LayoutType) (index : number) : @M W Layout (list bool) :=
  match n with
  | O => ret []
  | S n' =>
      bind (checkDimensionDiscrepancy fuel this dimension type index) (fun b =>
      bind (checkRepeatedly n' fuel this dimension type index) (fun bs =>
      ret (b :: bs)))
  end.

(** ** A caller driving the providers

    The calls a caller can make: constructing providers, allocating and
    writing dimension objects of its own, changing its own state, and the
    public methods of the providers.  [newLayoutManager] is the virtual call;
    the override of the object's class runs. *)
Section Callers.
Context {W : Type} {Layout : Type}.

Inductive Call : Type :=
| CNewLayoutProvider (getLayoutTypeForIndex : @GetLayoutTypeForIndex W)
    (setLayoutForType : @SetLayoutForType W)
| CNewGridLayoutProvider (getLayoutTypeForIndex : @GetLayoutTypeForIndex W)
    (setHeightForIndex : @SetHeightForIndex W)
    (getColumnSpanForIndex : @GetColumnSpanForIndex W)
    (setMaxColumnSpan : @SetMaxColumnSpan W)
| CNewDimension (d : Dimension)
| CWriteDimension (dim : loc) (d : Dimension)
| CCallerState (w : W)
| CNewLayoutManager (this renderWindowSize : loc) (isHorizontal : option bool)
    (cachedLayouts : option (list Layout))
| CGetLayoutTypeForIndex (this : loc) (index : number)
| CSetComputedLayout (this : loc) (type : LayoutType) (dimension : loc) (index : number)
| CCheckDimensionDiscrepancy (this dimension : loc) (type : LayoutType) (index : number)
| CSetMaxColumnSpan (this : loc)
| CGetColumnSpanForIndex (this : loc) (index : number)
| CSetHeightForIndex (this : loc) (height index : number).

(** The store a call leaves to the caller: the one it returned or threw in.
    A call that overflows the stack has written nothing before it does (the
    recursion comes first), and the caller goes on with the store it had. *)
Definition store_after {A : Type} (o : @Outcome W Layout A) (st : @State W Layout) : State :=
  match o with
  | Return _ st' => st'
  | Throw _ st' => st'
  | StackOverflow => st
  | Stuck => st
  end.

Definition perform (fuel : nat) (c : Call) (st : @State W Layout) : State :=
  match c with
  | CNewLayoutProvider g f => store_after (new_LayoutProvider g f st) st
  | CNewGridLayoutProvider g h s m => store_after (new_GridLayoutProvider g h s m st) st
  | CNewDimension d => store_after (newDimension d st) st
  | CWriteDimension dim d => store_after (writeDimension dim d st) st
  | CCallerState w => set_world w st
  | CNewLayoutManager this win h c => store_after (newLayoutManager this win h c st) st
  | CGetLayoutTypeForIndex this i => store_after (getLayoutTypeForIndex this i st) st
  | CSetComputedLayout this t dim i => store_after (setComputedLayout fuel this t dim i st) st
  | CCheckDimensionDiscrepancy this dim t i =>
      store_after (checkDimensionDiscrepancy fuel this dim t i st) st
  | CSetMaxColumnSpan this => store_after (setMaxColumnSpan this st) st
  | CGetColumnSpanForIndex this i => store_after (getColumnSpanForIndex this i st) st
  | CSetHeightForIndex this h i => store_after (setHeightForIndex this h i st) st
  end.

Definition run (fuel : nat) (cs : list Call) (st : @State W Layout) : State :=
  fold_left (fun s c => perform fuel c s) cs st.

(** The one call that may write a field of an existing provider. *)
Definition is_newLayoutManager (c : Call) : bool :=
  match c with
  | CNewLayoutManager _ _ _ _ => true
  | _ => false
  end.

(** The store before anything is constructed. *)
Definition empty_store (w : W) : @State W Layout := mkState w [] [] [] [].

(** A computation that neither allocates nor rebinds a field of a provider:
    whatever it returns or throws, the provider objects are the same and no
    dimension object or wrap-grid manager has appeared or gone. *)
Definition quiet {A : Type} (c : @M W Layout A) : Prop :=
  forall st,
    match c st with
    | Return _ st' | Throw _ st' =>
        providers st' = providers st /\
        length (dimensions st') = length (dimensions st) /\
        length (wrapGridManagers st') = length (wrapGridManagers st)
    | StackOverflow | Stuck => True
    end.

(** A provider with its [_lastLayoutManager] rebound. *)
Definition with_lastLayoutManager (last : option loc) (p : @LayoutProvider W) : LayoutProvider :=
  mkLayoutProvider (_setLayoutForType p) (_getLayoutTypeForIndex p) (_tempDim p) last
    (gridFields p).

(** What a constructor stores in the callback slot of the object [this]:
    the injected function for a plain provider, the closure forwarding to
    [this] itself for a grid provider. *)
Definition slot_as_constructed (this : loc) (p : @LayoutProvider W) : Prop :=
  match _setLayoutForType p with
  | Injected _ => gridFields p = None
  | ForwardToSetComputedLayout self => self = this /\ is_Some (gridFields p)
  end.

(** The three ways one call changes the provider objects: not at all; a new
    provider with a fresh scratch buffer; a plain provider remembering a
    fresh wrap-grid manager. *)
Definition evolves (st st' : @State W Layout) : Prop :=
  length (dimensions st) <= length (dimensions st') /\
  length (wrapGridManagers st) <= length (wrapGridManagers st') /\
  (providers st' = providers st \/
   (exists p,
      providers st' = providers st ++ [p] /\
      _tempDim p = length (dimensions st) /\
      length (dimensions st) < length (dimensions st') /\
      _lastLayoutManager p = None /\
      slot_as_constructed (length (providers st)) p) \/
   (exists this p,
      providers st !! this = Some p /\
      gridFields p = None /\
      length (wrapGridManagers st) < length (wrapGridManagers st') /\
      providers st' =
        <[this := with_lastLayoutManager (Some (length (wrapGridManagers st))) p]>
          (providers st))).

(** The invariant of the stores a caller can reach: every provider's scratch
    buffer and remembered manager are allocated, its callback slot is the
    one its constructor stored, a grid provider remembers no manager, and no
    two providers share a scratch buffer. *)
Definition store_inv (st : @State W Layout) : Prop :=
  forall this p,
    providers st !! this = Some p ->
    _tempDim p < length (dimensions st) /\
    match _lastLayoutManager p with
    | Some manager => manager < length (wrapGridManagers st)
    | None => True
    end /\
    slot_as_constructed this p /\
    (is_Some (gridFields p) -> _lastLayoutManager p = None) /\
    (forall that q,
       providers st !! that = Some q -> _tempDim q = _tempDim p -> that = this).

End Callers.

(** ** Example configurations

    The scenarios of the specification, on a caller whose mutable state is
    one number. *)
Module Scenario.
Local Open Scope Z_scope.

Definition classify : @GetLayoutTypeForIndex Z :=
  fun index w => (if (index mod 3 =? 0) then TString "header" else TString "row", w).

Definition footprint (type : LayoutType) : Dimension :=
  match type with
  | TString "header" => mkDimension 100 320
  | _ => mkDimension 50 320
  end.

Definition compute : @SetLayoutForType Z :=
  fun type _ _ w => (footprint type, w).

(** A dimension callback that assigns the height and leaves the width. *)
Definition compute_height : @SetLayoutForType Z :=
  fun type d _ w => (mkDimension (height (footprint type)) (width d), w).

Definition provider (f : @SetLayoutForType Z) (last : option loc) : @LayoutProvider Z :=
  mkLayoutProvider (Injected f) classify 0%nat last None.

(** One provider (object 0) whose scratch buffer is object 0 of the
    dimensions; object 1 is a dimension of the caller, [{50, 320}]. *)
Definition store (f : @SetLayoutForType Z) : @State Z unit :=
  mkState 0 [mkDimension 0 0; mkDimension 50 320] [provider f None] [] [].

(** The same after the provider has created one manager. *)
Definition store_with_manager : @State Z unit :=
  mkState 0 [mkDimension 0 0; mkDimension 50 320] [provider compute (Some 0%nat)]
    [mkWrapGridLayoutManager 0%nat 1%nat None None []] [].

(** The two dimension objects of these stores: the provider's scratch
    buffer and the dimension the caller has cached. *)
Definition scratch : loc := 0%nat.
Definition cached : loc := 1%nat.

(** A grid provider: every item spans 2 columns; the maximum span is read
    from the caller's state, here 4. *)
Definition gridFieldsExample : @GridLayoutProviderFields Z :=
  mkGridFields (fun height _ w => (height, w)) (fun _ w => (2, w)) (fun w => (w, w)).

Definition gridProvider : @LayoutProvider Z :=
  mkLayoutProvider (ForwardToSetComputedLayout 0%nat) classify 0%nat None (Some gridFieldsExample).

Definition gridStore : @State Z unit :=
  mkState 4 [mkDimension 0 0; mkDimension 50 320] [gridProvider] [] [].

(** A dimension callback that assigns the height on every call and the
    width for index 3 only. *)
Definition compute_width_at_3 : @SetLayoutForType Z :=
  fun type d index w =>
    (mkDimension (height (footprint type)) (if index =? 3 then 320 else width d), w).

(** The store of one provider whose scratch buffer holds [left]. *)
Definition store_with_scratch (f : @SetLayoutForType Z) (left : Dimension) : @State Z unit :=
  mkState 0 [left; mkDimension 50 320] [provider f None] [] [].

End Scenario.

(** A session of a caller over the scenario's callbacks: a plain provider
    (object 0), a grid provider (object 1), a dimension of the caller
    (object 2 of the dimensions, after the two scratch buffers), a manager
    from each provider, a check on each, a change of the caller's state and
    a second plain provider. *)
Module Session.
Import Scenario.
Local Open Scope Z_scope.

Definition gridProvider1 : @LayoutProvider Z :=
  mkLayoutProvider (ForwardToSetComputedLayout 1%nat) classify 1%nat None
    (Some gridFieldsExample).

Definition caller_dimension : loc := 2%nat.

Definition calls : list (@Call Z unit) :=
  [ CNewLayoutProvider classify compute;
    CNewGridLayoutProvider classify (_setHeightForIndex gridFieldsExample)
      (_getColumnSpanForIndex gridFieldsExample) (_setMaxColumnSpan gridFieldsExample);
    CNewDimension (mkDimension 50 320);
    CNewLayoutManager 0%nat caller_dimension None None;
    CNewLayoutManager 1%nat caller_dimension None None;
    CCheckDimensionDiscrepancy 0%nat caller_dimension (TString "header") 3;
    CCheckDimensionDiscrepancy 1%nat caller_dimension (TString "header") 3;
    CCallerState 6;
    CNewLayoutProvider classify compute_height ].

(** The same session without the two manager creations. *)
Definition calls_without_managers : list (@Call Z unit) :=
  filter (fun c => is_newLayoutManager c = false) calls.

Definition reached : @State Z unit := run 5 calls (empty_store 4).

End Session.

(** ** Equations of the building blocks *)

Section Equations.
Context {W : Type} {Layout : Type}.
Implicit Types (st : @State W Layout) (p : @LayoutProvider W).

Lemma bind_Return {A B : Type} (c : @M W Layout A) (k : A -> @M W Layout B) st a st' :
  c st = Return a st' -> bind c k st = k a st'.
Proof. intros Hc. unfold bind. now rewrite Hc. Qed.

Lemma bind_StackOverflow {A B : Type} (c : @M W Layout A) (k : A -> @M W Layout B) st :
  c st = StackOverflow -> bind c k st = StackOverflow.
Proof. intros Hc. unfold bind. now rewrite Hc. Qed.

Lemma callback_eq {A : Type} (f : W -> A * W) st :
  callback f st = Return (f (world st)).1 (set_world (f (world st)).2 st).
Proof. unfold callback. now destruct (f (world st)). Qed.

Lemma getProvider_eq st this p :
  providers st !! this = Some p -> getProvider this st = Return p st.
Proof. intros Hp. unfold getProvider, bind, gets. simpl. now rewrite Hp. Qed.

Lemma field_eq {A : Type} st this p (proj : LayoutProvider -> A) :
  providers st !! this = Some p -> field this proj st = Return (proj p) st.
Proof.
  intros Hp. unfold field.
  now rewrite (bind_Return _ _ _ _ _ (getProvider_eq _ _ _ Hp)).
Qed.

Lemma gridField_eq {A : Type} st this p g (proj : GridLayoutProviderFields -> A) :
  providers st !! this = Some p -> gridFields p = Some g ->
  gridField this proj st = Return (proj g) st.
Proof.
  intros Hp Hg. unfold gridField.
  rewrite (bind_Return _ _ _ _ _ (field_eq _ _ _ gridFields Hp)).
  now rewrite Hg.
Qed.

Lemma readDimension_eq st dim d :
  dimensions st !! dim = Some d -> readDimension dim st = Return d st.
Proof. intros Hd. unfold readDimension, bind, gets. simpl. now rewrite Hd. Qed.

Lemma writeDimension_eq st dim d d' :
  dimensions st !! dim = Some d ->
  writeDimension dim d' st = Return tt (set_dimensions (<[dim := d']> (dimensions st)) st).
Proof.
  intros Hd. unfold writeDimension.
  now rewrite (bind_Return _ _ _ _ _ (readDimension_eq _ _ _ Hd)).
Qed.

Lemma setMaxBounds_eq st manager itemDim d m :
  dimensions st !! itemDim = Some d ->
  wrapGridManagers st !! manager = Some m ->
  setMaxBounds manager itemDim st =
    Return tt (set_wrapGridManagers
                 (<[manager := recordMaxBounds d m]> (wrapGridManagers st)) st).
Proof.
  intros Hd Hm. unfold setMaxBounds.
  rewrite (bind_Return _ _ _ _ _ (readDimension_eq _ _ _ Hd)).
  unfold bind, gets. simpl. now rewrite Hm.
Qed.

Lemma setComputedLayout_Injected fuel st this p f type dim d index :
  providers st !! this = Some p ->
  _setLayoutForType p = Injected f ->
  dimensions st !! dim = Some d ->
  setComputedLayout (S fuel) this type dim index st =
    Return tt (after_compute f type dim d index st).
Proof.
  intros Hp Hf Hd. simpl.
  rewrite (bind_Return _ _ _ _ _ (field_eq _ _ _ _setLayoutForType Hp)), Hf.
  rewrite (bind_Return _ _ _ _ _ (readDimension_eq _ _ _ Hd)).
  rewrite (bind_Return _ _ _ _ _ (callback_eq _ _)).
  erewrite writeDimension_eq by (simpl; exact Hd).
  reflexivity.
Qed.

(** A provider whose callback slot holds the closure forwarding to
    [setComputedLayout] on the provider itself: every call nests one more
    call, whatever the stack budget. *)
Lemma setComputedLayout_Forward fuel st this p type dim index :
  providers st !! this = Some p ->
  _setLayoutForType p = ForwardToSetComputedLayout this ->
  setComputedLayout fuel this type dim index st = StackOverflow.
Proof.
  intros Hp Hf. induction fuel as [|fuel IH]; [reflexivity|].
  simpl. rewrite (bind_Return _ _ _ _ _ (field_eq _ _ _ _setLayoutForType Hp)), Hf.
  exact IH.
Qed.

Lemma insert_alter_lookup {A : Type} (f : A -> A) (l : list A) (i : nat) (x : A) :
  l !! i = Some x -> <[i := f x]> l = alter f i l.
Proof.
  intros Hx. apply list_eq. intros j.
  rewrite list_lookup_alter, list_lookup_insert.
  pose proof (lookup_lt_Some _ _ _ Hx) as Hlt.
  destruct (decide (i = j)) as [->|Hne].
  - rewrite Hx. simpl. rewrite decide_True; [reflexivity|]. split; [reflexivity|exact Hlt].
  - rewrite decide_False; [reflexivity|]. intros [? _]. contradiction.
Qed.

(** What one discrepancy check of a provider with an injected dimension
    callback does, in full: the value it returns and the store it leaves. *)
Lemma checkDimensionDiscrepancy_eq fuel st this p f type index dimension t0 d0 :
  well_formed st this p ->
  _setLayoutForType p = Injected f ->
  dimensions st !! _tempDim p = Some t0 ->
  dimensions st !! dimension = Some d0 ->
  let d2 := computed f type t0 index st in
  let d1 := if decide (dimension = _tempDim p) then d2 else d0 in
  checkDimensionDiscrepancy (S fuel) this dimension type index st =
    Return (strict_neq (height d1) (height d2) || strict_neq (width d1) (width d2))
      (mkState (f type t0 index (world st)).2
         (<[_tempDim p := d2]> (dimensions st))
         (providers st)
         (hinted d2 (_lastLayoutManager p) (wrapGridManagers st))
         (gridManagers st)).
Proof.
  intros (Hp & _ & Hm) Hf Ht Hd d2 d1.
  unfold checkDimensionDiscrepancy.
  rewrite (bind_Return _ _ _ _ _ (field_eq _ _ _ _tempDim Hp)).
  rewrite (bind_Return _ _ _ _ _ (setComputedLayout_Injected fuel _ _ _ _ type _ _ index Hp Hf Ht)).
  set (st1 := after_compute f type (_tempDim p) t0 index st).
  assert (Hp1 : providers st1 !! this = Some p) by exact Hp.
  assert (Ht1 : dimensions st1 !! _tempDim p = Some d2).
  { unfold st1, after_compute. simpl. apply list_lookup_insert_eq.
    exact (lookup_lt_Some _ _ _ Ht). }
  assert (Hd1 : dimensions st1 !! dimension = Some d1).
  { unfold st1, after_compute, d1. simpl. destruct (decide (dimension = _tempDim p)) as [->|Hne].
    - apply list_lookup_insert_eq. exact (lookup_lt_Some _ _ _ Ht).
    - rewrite list_lookup_insert_ne by congruence. exact Hd. }
  rewrite (bind_Return _ _ _ _ _ (field_eq _ _ _ _tempDim Hp1)).
  rewrite (bind_Return _ _ _ _ _ (field_eq _ _ _ _lastLayoutManager Hp1)).
  destruct (_lastLayoutManager p) as [manager|] eqn:Hlast.
  - destruct Hm as [m Hm].
    assert (Hm1 : wrapGridManagers st1 !! manager = Some m) by exact Hm.
    rewrite (bind_Return _ _ _ _ _ (setMaxBounds_eq _ _ _ _ _ Ht1 Hm1)).
    erewrite bind_Return by (apply readDimension_eq; simpl; exact Hd1).
    erewrite bind_Return by (apply readDimension_eq; simpl; exact Ht1).
    unfold ret. simpl. f_equal.
    unfold set_wrapGridManagers. simpl. f_equal.
    apply insert_alter_lookup. exact Hm.
  - unfold bind at 1. unfold ret at 1.
    rewrite (bind_Return _ _ _ _ _ (readDimension_eq _ _ _ Hd1)).
    rewrite (bind_Return _ _ _ _ _ (readDimension_eq _ _ _ Ht1)).
    reflexivity.
Qed.

(** A check leaves the provider in a well-formed store. *)
Lemma hinted_lookup_is_Some d last (ms : list (@WrapGridLayoutManager Layout)) (i : nat) :
  is_Some (ms !! i) -> is_Some (hinted d last ms !! i).
Proof.
  intros Hi. destruct last as [manager|]; simpl; [|exact Hi].
  apply lookup_lt_is_Some. rewrite length_alter. now apply lookup_lt_is_Some.
Qed.

End Equations.

(** ** Properties of [LayoutProvider] *)

Section LayoutProviderProperties.
Context {W : Type} {Layout : Type}.
Implicit Types (st : @State W Layout) (p : @LayoutProvider W).

(** [LayoutProvider.newLayoutManager] allocates a wrap-grid manager, stores
    it in [_lastLayoutManager] and returns it. *)
Lemma LayoutProvider_newLayoutManager_eq st this p renderWindowSize isHorizontal cachedLayouts :
  providers st !! this = Some p ->
  let manager := length (wrapGridManagers st) in
  let p' := mkLayoutProvider (_setLayoutForType p) (_getLayoutTypeForIndex p)
              (_tempDim p) (Some manager) (gridFields p) in
  LayoutProvider_newLayoutManager this renderWindowSize isHorizontal cachedLayouts st =
    Return (WrapGridRef manager)
      (mkState (world st) (dimensions st) (<[this := p']> (providers st))
         (wrapGridManagers st ++
            [mkWrapGridLayoutManager this renderWindowSize isHorizontal cachedLayouts []])
         (gridManagers st)).
Proof.
  intros Hp manager p'. unfold LayoutProvider_newLayoutManager.
  unfold bind at 1. unfold new_WrapGridLayoutManager at 1.
  unfold updateProvider.
  erewrite bind_Return by (erewrite bind_Return by (apply getProvider_eq; exact Hp); reflexivity).
  erewrite bind_Return.
  2:{ apply field_eq. simpl. apply list_lookup_insert_eq. exact (lookup_lt_Some _ _ _ Hp). }
  reflexivity.
Qed.


(** A check that follows the creation of a manager: the new manager, built
    from the arguments of [newLayoutManager], has received the recomputed
    dimension as its only hint. *)
Lemma checkDimensionDiscrepancy_after_newLayoutManager
    fuel st this p f type index dimension t0 d0
    renderWindowSize isHorizontal cachedLayouts :
  well_formed st this p ->
  _setLayoutForType p = Injected f ->
  dimensions st !! _tempDim p = Some t0 ->
  dimensions st !! dimension = Some d0 ->
  exists manager st1 b st2,
    LayoutProvider_newLayoutManager this renderWindowSize isHorizontal cachedLayouts st =
      Return (WrapGridRef manager) st1 /\
    wrapGridManagers st !! manager = None /\
    checkDimensionDiscrepancy (S fuel) this dimension type index st1 = Return b st2 /\
    wrapGridManagers st2 !! manager =
      Some (mkWrapGridLayoutManager this renderWindowSize isHorizontal cachedLayouts
              [(f type t0 index (world st)).1]).
Proof.
  intros (Hp & Htemp & _) Hf Ht Hd.
  pose proof (LayoutProvider_newLayoutManager_eq st this p renderWindowSize isHorizontal
                cachedLayouts Hp) as Hnew.
  cbv zeta in Hnew.
  set (manager := length (wrapGridManagers st)) in *.
  set (p' := mkLayoutProvider _ _ _ (Some manager) _) in *.
  set (st1 := mkState _ _ _ _ _) in *.
  assert (Hm1 : wrapGridManagers st1 !! manager =
                Some (mkWrapGridLayoutManager this renderWindowSize isHorizontal
                        cachedLayouts [])).
  { unfold st1, manager. simpl. rewrite lookup_app_r by reflexivity.
    now rewrite Nat.sub_diag. }
  assert (Hwf1 : well_formed st1 this p').
  { split; [|split].
    - unfold st1. simpl. apply list_lookup_insert_eq. exact (lookup_lt_Some _ _ _ Hp).
    - exact Htemp.
    - simpl. eexists. exact Hm1. }
  pose proof (checkDimensionDiscrepancy_eq fuel st1 this p' f type index dimension t0 d0
                Hwf1 Hf Ht Hd) as Heq.
  cbv zeta in Heq. unfold computed in Heq.
  eexists manager, st1, _, _. split; [exact Hnew|].
  split; [now apply lookup_ge_None_2|]. split; [exact Heq|].
  simpl. rewrite list_lookup_alter, decide_True by reflexivity.
  exact (f_equal (fmap (recordMaxBounds _)) Hm1).
Qed.

(** C4. Whatever a discrepancy check returns, the manager the provider
    created last (the one [LayoutProvider.newLayoutManager] stored in
    [_lastLayoutManager]) is sent the freshly computed dimension as a
    max-bounds hint, and no other manager is touched; a provider that never
    created a manager completes the check all the same and no manager
    changes.  In particular a check that follows [newLayoutManager] reaches
    the manager that call returned. *)
Theorem checkDimensionDiscrepancy_propagates_bounds
    fuel st this p f type index dimension t0 d0 :
  well_formed st this p ->
  _setLayoutForType p = Injected f ->
  dimensions st !! _tempDim p = Some t0 ->
  dimensions st !! dimension = Some d0 ->
  (exists b st',
     checkDimensionDiscrepancy (S fuel) this dimension type index st = Return b st' /\
     (b = strict_neq (height d0) (height (f type t0 index (world st)).1)
          || strict_neq (width d0) (width (f type t0 index (world st)).1)
      \/ dimension = _tempDim p) /\
     match _lastLayoutManager p with
     | Some manager =>
         exists m,
           wrapGridManagers st !! manager = Some m /\
           wrapGridManagers st' !! manager =
             Some (recordMaxBounds (f type t0 index (world st)).1 m) /\
           forall other, other <> manager ->
             wrapGridManagers st' !! other = wrapGridManagers st !! other
     | None => wrapGridManagers st' = wrapGridManagers st
     end) /\
  (forall renderWindowSize isHorizontal cachedLayouts,
   exists manager st1 b st2,
     LayoutProvider_newLayoutManager this renderWindowSize isHorizontal cachedLayouts st =
       Return (WrapGridRef manager) st1 /\
     wrapGridManagers st !! manager = None /\
     checkDimensionDiscrepancy (S fuel) this dimension type index st1 = Return b st2 /\
     wrapGridManagers st2 !! manager =
       Some (mkWrapGridLayoutManager this renderWindowSize isHorizontal cachedLayouts
               [(f type t0 index (world st)).1])).
Proof.
  intros Hwf Hf Ht Hd. split.
  - pose proof (checkDimensionDiscrepancy_eq fuel st this p f type index dimension t0 d0
                  Hwf Hf Ht Hd) as Heq.
    cbv zeta in Heq. unfold computed in Heq.
    eexists _, _. split; [exact Heq|]. simpl. split.
    { destruct (decide (dimension = _tempDim p)); [now right|now left]. }
    destruct Hwf as (_ & _ & Hm).
    destruct (_lastLayoutManager p) as [manager|]; simpl; [|reflexivity].
    destruct Hm as [m Hm]. exists m. split; [exact Hm|]. split.
    + rewrite list_lookup_alter, decide_True by reflexivity.
      exact (f_equal (fmap (recordMaxBounds _)) Hm).
    + intros other Hne. rewrite list_lookup_alter, decide_False by congruence. reflexivity.
  - intros renderWindowSize isHorizontal cachedLayouts.
    now apply (checkDimensionDiscrepancy_after_newLayoutManager fuel st this p f type index
                 dimension t0 d0).
Qed.

(** C5, as amended. A discrepancy check leaves the dimension object the
    caller supplied as it was, provided that object is not the provider's
    scratch buffer: of the dimension objects only the scratch buffer is
    written, and the provider object itself is not written at all. *)
Theorem checkDimensionDiscrepancy_frame
    fuel st this p f type index dimension t0 d0 :
  well_formed st this p ->
  _setLayoutForType p = Injected f ->
  dimensions st !! _tempDim p = Some t0 ->
  dimensions st !! dimension = Some d0 ->
  dimension <> _tempDim p ->
  exists b st',
    checkDimensionDiscrepancy (S fuel) this dimension type index st = Return b st' /\
    dimensions st' !! dimension = Some d0 /\
    (forall other, other <> _tempDim p ->
       dimensions st' !! other = dimensions st !! other) /\
    providers st' = providers st.
Proof.
  intros Hwf Hf Ht Hd Hne.
  pose proof (checkDimensionDiscrepancy_eq fuel st this p f type index dimension t0 d0
                Hwf Hf Ht Hd) as Heq.
  cbv zeta in Heq.
  eexists _, _. split; [exact Heq|]. simpl. repeat split.
  - rewrite list_lookup_insert_ne by congruence. exact Hd.
  - intros other Hother. now rewrite list_lookup_insert_ne by congruence.
Qed.

(** One check of a dimension that holds the value the callback computes,
    whatever the scratch buffer held: the answer is [false] and the next
    check starts from a store of the same shape. *)
Lemma checkDimensionDiscrepancy_consistent_step
    fuel st this p f type index dimension t0 v :
  well_formed st this p ->
  _setLayoutForType p = Injected f ->
  dimensions st !! _tempDim p = Some t0 ->
  dimensions st !! dimension = Some v ->
  (forall d w, (f type d index w).1 = v) ->
  exists st',
    checkDimensionDiscrepancy (S fuel) this dimension type index st = Return false st' /\
    well_formed st' this p /\
    dimensions st' !! _tempDim p = Some v /\
    dimensions st' !! dimension = Some v.
Proof.
  intros Hwf Hf Ht Hd Hdet.
  pose proof (checkDimensionDiscrepancy_eq fuel st this p f type index dimension t0 v
                Hwf Hf Ht Hd) as Heq.
  cbv zeta in Heq. unfold computed in Heq. rewrite !Hdet in Heq.
  assert (Hsame : (if decide (dimension = _tempDim p) then v else v) = v)
    by now destruct (decide (dimension = _tempDim p)).
  rewrite Hsame in Heq.
  assert (Hfalse : strict_neq (height v) (height v) || strict_neq (width v) (width v) = false).
  { unfold strict_neq. now rewrite !Z.eqb_refl. }
  rewrite Hfalse in Heq.
  pose proof (lookup_lt_Some _ _ _ Ht) as Hlt.
  assert (Ht' : <[_tempDim p := v]> (dimensions st) !! _tempDim p = Some v)
    by now apply list_lookup_insert_eq.
  eexists. split; [exact Heq|].
  destruct Hwf as (Hp & _ & Hm).
  split; [|split].
  - split; [exact Hp|]. split; simpl.
    + rewrite Ht'. now eexists.
    + destruct (_lastLayoutManager p) as [manager|] eqn:Hlast; [|exact I].
      now apply hinted_lookup_is_Some.
  - exact Ht'.
  - simpl. destruct (decide (dimension = _tempDim p)) as [->|Hne]; [exact Ht'|].
    rewrite list_lookup_insert_ne by congruence. exact Hd.
Qed.

(** C7, as amended.  When the injected dimension callback is deterministic
    (for this type and index it writes the same dimension whatever the
    caller's state and whatever the scratch buffer held) and the supplied
    dimension holds that very value, [checkDimensionDiscrepancy] returns
    [false], and so does every further call with the same arguments. *)
Theorem checkDimensionDiscrepancy_false_when_consistent
    n fuel st this p f type index dimension t0 v :
  well_formed st this p ->
  _setLayoutForType p = Injected f ->
  dimensions st !! _tempDim p = Some t0 ->
  dimensions st !! dimension = Some v ->
  (forall d w, (f type d index w).1 = v) ->
  (exists st',
     checkDimensionDiscrepancy (S fuel) this dimension type index st = Return false st') /\
  (exists st',
     checkRepeatedly n (S fuel) this dimension type index st =
       Return (replicate n false) st').
Proof.
  intros Hwf Hf Ht Hd Hdet. split.
  - destruct (checkDimensionDiscrepancy_consistent_step fuel st this p f type index
                dimension t0 v Hwf Hf Ht Hd Hdet) as (st' & Heq & _).
    now exists st'.
  - revert st t0 Hwf Ht Hd. induction n as [|n IH]; intros st t0 Hwf Ht Hd.
    + exists st. reflexivity.
    + destruct (checkDimensionDiscrepancy_consistent_step fuel st this p f type index
                  dimension t0 v Hwf Hf Ht Hd Hdet) as (st1 & Heq & Hwf1 & Ht1 & Hd1).
      destruct (IH st1 v Hwf1 Ht1 Hd1) as (st2 & Hrest).
      exists st2. cbn [checkRepeatedly replicate].
      rewrite (bind_Return _ _ _ _ _ Heq).
      rewrite (bind_Return _ _ _ _ _ Hrest).
      reflexivity.
Qed.

(** The constructor of [LayoutProvider], in full. *)
Lemma new_LayoutProvider_eq (classify : @GetLayoutTypeForIndex W) f st :
  new_LayoutProvider classify f st =
    Return (length (providers st))
      (mkState (world st) (dimensions st ++ [mkDimension 0 0])
         (providers st ++
            [mkLayoutProvider (Injected f) classify (length (dimensions st)) None None])
         (wrapGridManagers st) (gridManagers st)).
Proof. reflexivity. Qed.

(** One discrepancy check, whatever the callback writes: the answer, the
    scratch buffer afterwards, and what the next check starts from. *)
Lemma checkDimensionDiscrepancy_step fuel st this p f type index dimension t0 d0 :
  well_formed st this p ->
  _setLayoutForType p = Injected f ->
  dimensions st !! _tempDim p = Some t0 ->
  dimensions st !! dimension = Some d0 ->
  exists b st',
    checkDimensionDiscrepancy (S fuel) this dimension type index st = Return b st' /\
    (dimension <> _tempDim p ->
     (b = true <->
        height d0 <> height (f type t0 index (world st)).1 \/
        width d0 <> width (f type t0 index (world st)).1)) /\
    well_formed st' this p /\
    dimensions st' !! _tempDim p = Some (f type t0 index (world st)).1 /\
    world st' = (f type t0 index (world st)).2 /\
    (forall other, other <> _tempDim p ->
       dimensions st' !! other = dimensions st !! other).
Proof.
  intros Hwf Hf Ht Hd.
  pose proof (checkDimensionDiscrepancy_eq fuel st this p f type index dimension t0 d0
                Hwf Hf Ht Hd) as Heq.
  cbv zeta in Heq. unfold computed in Heq.
  set (d2 := (f type t0 index (world st)).1) in *.
  pose proof (lookup_lt_Some _ _ _ Ht) as Hlt.
  assert (Ht' : <[_tempDim p := d2]> (dimensions st) !! _tempDim p = Some d2)
    by now apply list_lookup_insert_eq.
  eexists _, _. split; [exact Heq|]. simpl.
  destruct Hwf as (Hp & _ & Hm).
  split; [|split; [|split; [exact Ht'|split; [reflexivity|]]]].
  - intros Hne. rewrite decide_False by exact Hne. unfold strict_neq. split.
    + intros Hb. apply orb_true_iff in Hb.
      destruct Hb as [Hb|Hb]; apply negb_true_iff, Z.eqb_neq in Hb; auto.
    + intros [Hb|Hb]; apply orb_true_iff; [left|right];
        now apply negb_true_iff, Z.eqb_neq.
  - split; [exact Hp|]. split; simpl.
    + rewrite Ht'. now eexists.
    + destruct (_lastLayoutManager p) as [manager|] eqn:Hlast; [|exact I].
      now apply hinted_lookup_is_Some.
  - intros other Hother. now rewrite list_lookup_insert_ne by congruence.
Qed.

(** C10. The scratch buffer is [{height: 0, width: 0}] when the provider is
    constructed and no check resets it.  When, in one call of
    [checkDimensionDiscrepancy], the dimension callback assigns the height
    only (the width it leaves is the width it found), the width that call
    compares against is the width the buffer held before the call: 0 on the
    first check after construction, and otherwise the width the previous
    check left there, whatever the callback did in that previous check. *)
Theorem scratch_buffer_is_never_reset (f : @SetLayoutForType W) :
  (forall classify st,
     exists this st1 p,
       new_LayoutProvider classify f st = Return this st1 /\
       providers st1 !! this = Some p /\
       dimensions st1 !! _tempDim p = Some (mkDimension 0 0)) /\
  (forall classify fuel st dimension d0 type index,
     dimensions st !! dimension = Some d0 ->
     width (f type (mkDimension 0 0) index (world st)).1 = width (mkDimension 0 0) ->
     exists this st1 b st2,
       new_LayoutProvider classify f st = Return this st1 /\
       checkDimensionDiscrepancy (S fuel) this dimension type index st1 = Return b st2 /\
       (b = true <->
          height d0 <> height (f type (mkDimension 0 0) index (world st)).1 \/
          width d0 <> 0%Z)) /\
  (forall fuel st this p type index dimension t0 d0,
     well_formed st this p ->
     _setLayoutForType p = Injected f ->
     dimensions st !! _tempDim p = Some t0 ->
     dimensions st !! dimension = Some d0 ->
     dimension <> _tempDim p ->
     width (f type t0 index (world st)).1 = width t0 ->
     exists b st',
       checkDimensionDiscrepancy (S fuel) this dimension type index st = Return b st' /\
       (b = true <->
          height d0 <> height (f type t0 index (world st)).1 \/
          width d0 <> width t0) /\
       dimensions st' !! _tempDim p =
         Some (mkDimension (height (f type t0 index (world st)).1) (width t0))) /\
  (forall fuel st this p type1 index1 dimension1 d1 type2 index2 dimension2 d2 t0,
     well_formed st this p ->
     _setLayoutForType p = Injected f ->
     dimensions st !! _tempDim p = Some t0 ->
     dimensions st !! dimension1 = Some d1 ->
     dimensions st !! dimension2 = Some d2 ->
     dimension2 <> _tempDim p ->
     let left_by_first := (f type1 t0 index1 (world st)).1 in
     let state_after_first := (f type1 t0 index1 (world st)).2 in
     width (f type2 left_by_first index2 state_after_first).1 = width left_by_first ->
     exists b1 st1 b2 st2,
       checkDimensionDiscrepancy (S fuel) this dimension1 type1 index1 st = Return b1 st1 /\
       checkDimensionDiscrepancy (S fuel) this dimension2 type2 index2 st1 = Return b2 st2 /\
       (b2 = true <->
          height d2 <> height (f type2 left_by_first index2 state_after_first).1 \/
          width d2 <> width left_by_first)).
Proof.
  assert (Hone : forall fuel st this p type index dimension t0 d0,
     well_formed st this p ->
     _setLayoutForType p = Injected f ->
     dimensions st !! _tempDim p = Some t0 ->
     dimensions st !! dimension = Some d0 ->
     dimension <> _tempDim p ->
     width (f type t0 index (world st)).1 = width t0 ->
     exists b st',
       checkDimensionDiscrepancy (S fuel) this dimension type index st = Return b st' /\
       (b = true <->
          height d0 <> height (f type t0 index (world st)).1 \/
          width d0 <> width t0) /\
       dimensions st' !! _tempDim p =
         Some (mkDimension (height (f type t0 index (world st)).1) (width t0))).
  { intros fuel st this p type index dimension t0 d0 Hwf Hf Ht Hd Hne Hwidth.
    destruct (checkDimensionDiscrepancy_step fuel st this p f type index dimension t0 d0
                Hwf Hf Ht Hd) as (b & st' & Heq & Hb & _ & Ht' & _).
    exists b, st'. split; [exact Heq|]. split.
    - rewrite <- Hwidth. now apply Hb.
    - rewrite Ht'. f_equal.
      destruct ((f type t0 index (world st)).1) as [h w']. simpl in *. now subst. }
  split; [|split; [|split]].
  - intros classify st. eexists _, _, _. split; [apply new_LayoutProvider_eq|]. simpl.
    split.
    + rewrite lookup_app_r by reflexivity. now rewrite Nat.sub_diag.
    + simpl. rewrite lookup_app_r by reflexivity. now rewrite Nat.sub_diag.
  - intros classify fuel st dimension d0 type index Hd Hwidth.
    rewrite new_LayoutProvider_eq.
    set (p := mkLayoutProvider (Injected f) classify (length (dimensions st)) None None).
    set (st1 := mkState _ _ _ _ _).
    assert (Hp : providers st1 !! length (providers st) = Some p).
    { unfold st1. simpl. rewrite lookup_app_r by reflexivity. now rewrite Nat.sub_diag. }
    assert (Ht : dimensions st1 !! _tempDim p = Some (mkDimension 0 0)).
    { unfold st1. simpl. rewrite lookup_app_r by reflexivity. now rewrite Nat.sub_diag. }
    assert (Hd1 : dimensions st1 !! dimension = Some d0).
    { unfold st1. simpl. now apply lookup_app_l_Some. }
    assert (Hne : dimension <> _tempDim p).
    { simpl. pose proof (lookup_lt_Some _ _ _ Hd). lia. }
    assert (Hwf : well_formed st1 (length (providers st)) p).
    { split; [exact Hp|]. split; [rewrite Ht; now eexists|exact I]. }
    destruct (Hone fuel st1 _ p type index dimension _ d0 Hwf eq_refl Ht Hd1 Hne Hwidth)
      as (b & st2 & Heq & Hb & _).
    exists (length (providers st)), st1, b, st2. split; [reflexivity|].
    split; [exact Heq|]. exact Hb.
  - exact Hone.
  - intros fuel st this p type1 index1 dimension1 d1 type2 index2 dimension2 d2 t0
      Hwf Hf Ht Hd1 Hd2 Hne left_by_first state_after_first Hwidth.
    destruct (checkDimensionDiscrepancy_step fuel st this p f type1 index1 dimension1 t0 d1
                Hwf Hf Ht Hd1) as (b1 & st1 & Heq1 & _ & Hwf1 & Ht1 & Hw1 & Hframe).
    assert (Hd2' : dimensions st1 !! dimension2 = Some d2)
      by (rewrite Hframe by exact Hne; exact Hd2).
    fold left_by_first in Ht1. fold state_after_first in Hw1.
    assert (Hwidth' : width (f type2 left_by_first index2 (world st1)).1 = width left_by_first)
      by (rewrite Hw1; exact Hwidth).
    destruct (Hone fuel st1 this p type2 index2 dimension2 left_by_first d2
                Hwf1 Hf Ht1 Hd2' Hne Hwidth') as (b2 & st2 & Heq2 & Hb2 & _).
    exists b1, st1, b2, st2. split; [exact Heq1|]. split; [exact Heq2|].
    rewrite Hw1 in Hb2. exact Hb2.
Qed.

(** C9. [getLayoutTypeForIndex] returns what the injected classification
    function returns for the index in the caller's current state, the index
    being handed over as it is; when that function is deterministic, a second
    call with the same index returns the same type token. *)
Theorem getLayoutTypeForIndex_delegates st this p index :
  providers st !! this = Some p ->
  getLayoutTypeForIndex this index st =
    Return (_getLayoutTypeForIndex p index (world st)).1
      (set_world (_getLayoutTypeForIndex p index (world st)).2 st) /\
  ((forall w w', (_getLayoutTypeForIndex p index w).1 = (_getLayoutTypeForIndex p index w').1) ->
   exists token st1 st2,
     getLayoutTypeForIndex this index st = Return token st1 /\
     getLayoutTypeForIndex this index st1 = Return token st2).
Proof.
  intros Hp.
  assert (Hcall : forall st0 : @State W Layout, providers st0 !! this = Some p ->
    getLayoutTypeForIndex this index st0 =
      Return (_getLayoutTypeForIndex p index (world st0)).1
        (set_world (_getLayoutTypeForIndex p index (world st0)).2 st0)).
  { intros st0 Hp0. unfold getLayoutTypeForIndex.
    rewrite (bind_Return _ _ _ _ _ (field_eq _ _ _ _getLayoutTypeForIndex Hp0)).
    apply callback_eq. }
  split; [exact (Hcall st Hp)|].
  intros Hdet. eexists _, _, _. split; [exact (Hcall st Hp)|].
  rewrite (Hcall (set_world _ st) Hp). simpl. f_equal. apply Hdet.
Qed.

End LayoutProviderProperties.

(** ** Properties of [GridLayoutProvider] *)

Section GridLayoutProviderProperties.
Context {W : Type} {Layout : Type}.
Implicit Types (st : @State W Layout) (p : @LayoutProvider W).

(** The constructor of [GridLayoutProvider], in full: the callback slot of
    the new object holds the closure that forwards to [setComputedLayout]
    on that same object. *)
Lemma new_GridLayoutProvider_eq (classify : @GetLayoutTypeForIndex W)
    setHeight getSpan setMax st :
  new_GridLayoutProvider classify setHeight getSpan setMax st =
    Return (length (providers st))
      (mkState (world st) (dimensions st ++ [mkDimension 0 0])
         (providers st ++
            [mkLayoutProvider (ForwardToSetComputedLayout (length (providers st)))
               classify (length (dimensions st)) None
               (Some (mkGridFields setHeight getSpan setMax))])
         (wrapGridManagers st) (gridManagers st)).
Proof. reflexivity. Qed.

(** A discrepancy check of a provider whose slot forwards to itself never
    gets past the recomputation. *)
Lemma checkDimensionDiscrepancy_Forward fuel st this p dimension type index :
  providers st !! this = Some p ->
  _setLayoutForType p = ForwardToSetComputedLayout this ->
  checkDimensionDiscrepancy fuel this dimension type index st = StackOverflow.
Proof.
  intros Hp Hf. unfold checkDimensionDiscrepancy.
  rewrite (bind_Return _ _ _ _ _ (field_eq _ _ _ _tempDim Hp)).
  apply bind_StackOverflow. now apply (setComputedLayout_Forward fuel st this p).
Qed.

(** C1. The callback slot of a freshly constructed [GridLayoutProvider] is
    the closure forwarding to [setComputedLayout] of the same object; the
    body of [setComputedLayout] calls the slot again.  So the base behaviour
    is not preserved: for every stack budget, [setComputedLayout] and
    [checkDimensionDiscrepancy] exhaust it; neither returns, and the check
    yields no boolean. *)
Theorem GridLayoutProvider_checkDimensionDiscrepancy_overflows
    (classify : @GetLayoutTypeForIndex W) setHeight getSpan setMax st :
  exists this st1 p,
    new_GridLayoutProvider classify setHeight getSpan setMax st = Return this st1 /\
    providers st1 !! this = Some p /\
    _setLayoutForType p = ForwardToSetComputedLayout this /\
    forall fuel dimension type index,
      setComputedLayout fuel this type dimension index st1 = StackOverflow /\
      checkDimensionDiscrepancy fuel this dimension type index st1 = StackOverflow.
Proof.
  eexists _, _, _. split; [apply new_GridLayoutProvider_eq|].
  assert (Hp : forall ps (q : @LayoutProvider W), (ps ++ [q]) !! length ps = Some q).
  { intros ps q. rewrite lookup_app_r by reflexivity. now rewrite Nat.sub_diag. }
  split; [apply Hp|]. split; [reflexivity|].
  intros fuel dimension type index. split.
  - eapply setComputedLayout_Forward; [apply Hp|reflexivity].
  - eapply checkDimensionDiscrepancy_Forward; [apply Hp|reflexivity].
Qed.

(** C2. With [isHorizontal = true], [GridLayoutProvider.newLayoutManager]
    throws the [CustomError] of category ["NotSupportedException"] with its
    message, for every render window and every (possibly absent)
    [cachedLayouts]; it returns no manager, and the store, and with it the
    provider's [_lastLayoutManager], is the one the call started from. *)
Theorem GridLayoutProvider_newLayoutManager_horizontal_throws
    st this renderWindowSize cachedLayouts :
  GridLayoutProvider_newLayoutManager this renderWindowSize (Some true) cachedLayouts st =
    Throw NotSupportedException st /\
  type NotSupportedException = "NotSupportedException" /\
  message NotSupportedException = "Horizontal support not available for Grid Layouts" /\
  (forall manager st',
     GridLayoutProvider_newLayoutManager this renderWindowSize (Some true) cachedLayouts st
       <> Return manager st').
Proof.
  split; [reflexivity|]. split; [reflexivity|]. split; [reflexivity|].
  intros manager st'. discriminate.
Qed.

(** The same through a reference of static type [BaseLayoutProvider]. *)
Lemma newLayoutManager_grid_horizontal_throws st this p g renderWindowSize cachedLayouts :
  providers st !! this = Some p ->
  gridFields p = Some g ->
  newLayoutManager this renderWindowSize (Some true) cachedLayouts st =
    Throw NotSupportedException st.
Proof.
  intros Hp Hg. unfold newLayoutManager.
  rewrite (bind_Return _ _ _ _ _ (field_eq _ _ _ gridFields Hp)), Hg.
  reflexivity.
Qed.

Lemma setMaxColumnSpan_eq st this p g :
  providers st !! this = Some p ->
  gridFields p = Some g ->
  setMaxColumnSpan this st =
    Return (_setMaxColumnSpan g (world st)).1
      (set_world (_setMaxColumnSpan g (world st)).2 st).
Proof.
  intros Hp Hg. unfold setMaxColumnSpan.
  rewrite (bind_Return _ _ _ _ _ (gridField_eq _ _ _ _ _setMaxColumnSpan Hp Hg)).
  apply callback_eq.
Qed.

(** C6. With [isHorizontal] false or absent, [GridLayoutProvider.newLayoutManager]
    returns a new grid manager.  The max-span callback has run once, against
    the caller's state at the time of the call, and its result is the
    manager's maximum column span.  When the caller's state changes
    afterwards, [setMaxColumnSpan] follows the change and the manager keeps
    the span it was built with. *)
Theorem GridLayoutProvider_newLayoutManager_max_span
    st this p g renderWindowSize isHorizontal cachedLayouts :
  providers st !! this = Some p ->
  gridFields p = Some g ->
  truthy isHorizontal = false ->
  exists manager st1 m,
    GridLayoutProvider_newLayoutManager this renderWindowSize isHorizontal cachedLayouts st =
      Return (GridRef manager) st1 /\
    world st1 = (_setMaxColumnSpan g (world st)).2 /\
    gridManagers st1 !! manager = Some m /\
    gridManagers st !! manager = None /\
    g_maxColumnSpan m = (_setMaxColumnSpan g (world st)).1 /\
    forall w2,
      exists st2,
        setMaxColumnSpan this (set_world w2 st1) =
          Return (_setMaxColumnSpan g w2).1 st2 /\
        gridManagers st2 !! manager = Some m.
Proof.
  intros Hp Hg Hflag. unfold GridLayoutProvider_newLayoutManager. rewrite Hflag.
  rewrite (bind_Return _ _ _ _ _ (gridField_eq _ _ _ _ _getColumnSpanForIndex Hp Hg)).
  rewrite (bind_Return _ _ _ _ _ (gridField_eq _ _ _ _ _setMaxColumnSpan Hp Hg)).
  rewrite (bind_Return _ _ _ _ _ (callback_eq _ _)).
  unfold bind, new_GridLayoutManager, ret. simpl.
  assert (Hnew : forall (ms : list (@GridLayoutManager W Layout)) x,
            (ms ++ [x]) !! length ms = Some x).
  { intros ms x. rewrite lookup_app_r by reflexivity. now rewrite Nat.sub_diag. }
  eexists _, _, _. split; [reflexivity|]. simpl.
  split; [reflexivity|]. split; [apply Hnew|].
  split; [now apply lookup_ge_None_2|]. split; [reflexivity|].
  intros w2. eexists. split.
  - erewrite (setMaxColumnSpan_eq _ this p g) by (try exact Hp; exact Hg).
    simpl. reflexivity.
  - simpl. apply Hnew.
Qed.

(** C8. [setMaxColumnSpan], [getColumnSpanForIndex] and [setHeightForIndex]
    hand their arguments to the injected callbacks and return what these
    return; nothing is kept in the provider and nothing else is changed. *)
Theorem GridLayoutProvider_pass_throughs st this p g :
  providers st !! this = Some p ->
  gridFields p = Some g ->
  setMaxColumnSpan this st =
    Return (_setMaxColumnSpan g (world st)).1
      (set_world (_setMaxColumnSpan g (world st)).2 st) /\
  (forall index,
     getColumnSpanForIndex this index st =
       Return (_getColumnSpanForIndex g index (world st)).1
         (set_world (_getColumnSpanForIndex g index (world st)).2 st)) /\
  (forall height index,
     setHeightForIndex this height index st =
       Return (_setHeightForIndex g height index (world st)).1
         (set_world (_setHeightForIndex g height index (world st)).2 st)).
Proof.
  intros Hp Hg. split; [now apply (setMaxColumnSpan_eq st this p g)|]. split.
  - intros index. unfold getColumnSpanForIndex.
    rewrite (bind_Return _ _ _ _ _ (gridField_eq _ _ _ _ _getColumnSpanForIndex Hp Hg)).
    apply callback_eq.
  - intros height index. unfold setHeightForIndex.
    rewrite (bind_Return _ _ _ _ _ (gridField_eq _ _ _ _ _setHeightForIndex Hp Hg)).
    apply callback_eq.
Qed.

End GridLayoutProviderProperties.

(** ** How the operations compose *)

Section Composition.
Context {W : Type} {Layout : Type}.
Implicit Types (st : @State W Layout) (p : @LayoutProvider W).

Lemma lookup_snoc_new {A : Type} (l : list A) (x : A) : (l ++ [x]) !! length l = Some x.
Proof. rewrite lookup_app_r by reflexivity. now rewrite Nat.sub_diag. Qed.

(** The store [LayoutProvider.newLayoutManager] leaves is well formed for
    the provider, which now remembers the new manager. *)
Lemma LayoutProvider_newLayoutManager_well_formed
    st this p renderWindowSize isHorizontal cachedLayouts :
  well_formed st this p ->
  let manager := length (wrapGridManagers st) in
  let p' := mkLayoutProvider (_setLayoutForType p) (_getLayoutTypeForIndex p)
              (_tempDim p) (Some manager) (gridFields p) in
  well_formed
    (mkState (world st) (dimensions st) (<[this := p']> (providers st))
       (wrapGridManagers st ++
          [mkWrapGridLayoutManager this renderWindowSize isHorizontal cachedLayouts []])
       (gridManagers st))
    this p'.
Proof.
  intros (Hp & Htemp & _) manager p'. split; [|split].
  - simpl. apply list_lookup_insert_eq. exact (lookup_lt_Some _ _ _ Hp).
  - exact Htemp.
  - simpl. eexists. apply lookup_snoc_new.
Qed.

(** X1. Each [LayoutProvider.newLayoutManager] replaces the manager the
    provider remembers: after two creations the two managers are different
    objects, and a discrepancy check sends its hint to the second only; the
    first is as it was created. *)
Theorem newLayoutManager_replaces_tracked_manager
    fuel st this p f type index dimension t0 d0 win1 h1 c1 win2 h2 c2 :
  well_formed st this p ->
  _setLayoutForType p = Injected f ->
  dimensions st !! _tempDim p = Some t0 ->
  dimensions st !! dimension = Some d0 ->
  exists m1 m2 st1 st2 b st3,
    LayoutProvider_newLayoutManager this win1 h1 c1 st = Return (WrapGridRef m1) st1 /\
    LayoutProvider_newLayoutManager this win2 h2 c2 st1 = Return (WrapGridRef m2) st2 /\
    m1 <> m2 /\
    checkDimensionDiscrepancy (S fuel) this dimension type index st2 = Return b st3 /\
    wrapGridManagers st3 !! m1 = Some (mkWrapGridLayoutManager this win1 h1 c1 []) /\
    wrapGridManagers st3 !! m2 =
      Some (mkWrapGridLayoutManager this win2 h2 c2 [(f type t0 index (world st)).1]).
Proof.
  intros Hwf Hf Ht Hd.
  pose proof Hwf as (Hp & _).
  pose proof (LayoutProvider_newLayoutManager_eq st this p win1 h1 c1 Hp) as Hnew1.
  pose proof (LayoutProvider_newLayoutManager_well_formed st this p win1 h1 c1 Hwf) as Hwf1.
  cbv zeta in Hnew1, Hwf1.
  set (m1 := length (wrapGridManagers st)) in *.
  set (p1 := mkLayoutProvider _ _ _ (Some m1) _) in *.
  set (st1 := mkState _ _ _ _ _) in *.
  pose proof Hwf1 as (Hp1 & _).
  pose proof (LayoutProvider_newLayoutManager_eq st1 this p1 win2 h2 c2 Hp1) as Hnew2.
  pose proof (LayoutProvider_newLayoutManager_well_formed st1 this p1 win2 h2 c2 Hwf1) as Hwf2.
  cbv zeta in Hnew2, Hwf2.
  set (m2 := length (wrapGridManagers st1)) in *.
  set (p2 := mkLayoutProvider _ _ _ (Some m2) _) in *.
  set (st2 := mkState _ _ (<[this := p2]> _) _ _) in *.
  assert (Hm2 : m2 = S m1).
  { unfold m2, st1, m1. simpl. rewrite length_app. simpl. lia. }
  pose proof (checkDimensionDiscrepancy_eq fuel st2 this p2 f type index dimension t0 d0
                Hwf2 Hf Ht Hd) as Hcheck.
  cbv zeta in Hcheck. unfold computed in Hcheck.
  exists m1, m2, st1, st2. eexists _, _.
  split; [exact Hnew1|]. split; [exact Hnew2|]. split; [lia|].
  split; [exact Hcheck|]. simpl. split.
  - rewrite list_lookup_alter, decide_False by lia.
    rewrite lookup_app_l by (rewrite length_app; simpl; fold m1; lia).
    apply lookup_snoc_new.
  - rewrite list_lookup_alter, decide_True by reflexivity.
    exact (f_equal (fmap (recordMaxBounds _)) (lookup_snoc_new (wrapGridManagers st1) _)).
Qed.

(** X2. A dimension object filled by [setComputedLayout] passes the
    discrepancy check: when the injected callback computes the same value for
    this type and index whatever the caller's state and the content of the
    object it is handed, [checkDimensionDiscrepancy] on the object just
    filled returns [false].  [setComputedLayout] itself writes only the
    object it is handed, and the caller's state through the one run of the
    callback: every other dimension object (the scratch buffer included),
    every manager and every provider is as before. *)
Theorem setComputedLayout_then_check_false
    fuel st this p f type index dimension t0 d0 v :
  well_formed st this p ->
  _setLayoutForType p = Injected f ->
  dimensions st !! _tempDim p = Some t0 ->
  dimensions st !! dimension = Some d0 ->
  (forall d w, (f type d index w).1 = v) ->
  exists st1 st2,
    setComputedLayout (S fuel) this type dimension index st = Return tt st1 /\
    dimensions st1 !! dimension = Some v /\
    (forall other, other <> dimension ->
       dimensions st1 !! other = dimensions st !! other) /\
    world st1 = (f type d0 index (world st)).2 /\
    wrapGridManagers st1 = wrapGridManagers st /\
    gridManagers st1 = gridManagers st /\
    providers st1 = providers st /\
    checkDimensionDiscrepancy (S fuel) this dimension type index st1 = Return false st2.
Proof.
  intros Hwf Hf Ht Hd Hdet.
  pose proof Hwf as (Hp & Htemp & Hm).
  pose proof (setComputedLayout_Injected fuel st this p f type dimension d0 index Hp Hf Hd)
    as Hset.
  set (st1 := after_compute f type dimension d0 index st) in *.
  assert (Hd1 : dimensions st1 !! dimension = Some v).
  { unfold st1, after_compute, computed. simpl. rewrite Hdet.
    apply list_lookup_insert_eq. exact (lookup_lt_Some _ _ _ Hd). }
  assert (Ht1 : is_Some (dimensions st1 !! _tempDim p)).
  { unfold st1, after_compute. simpl. apply lookup_lt_is_Some. rewrite length_insert.
    exact (lookup_lt_Some _ _ _ Ht). }
  destruct Ht1 as [t1 Ht1].
  assert (Hwf1 : well_formed st1 this p).
  { split; [exact Hp|]. split; [now exists t1|exact Hm]. }
  destruct (checkDimensionDiscrepancy_consistent_step fuel st1 this p f type index
              dimension t1 v Hwf1 Hf Ht1 Hd1 Hdet) as (st2 & Hcheck & _).
  exists st1, st2. split; [exact Hset|]. split; [exact Hd1|].
  split.
  { intros other Hother. unfold st1, after_compute. simpl.
    now rewrite list_lookup_insert_ne by congruence. }
  split; [reflexivity|]. split; [reflexivity|]. split; [reflexivity|].
  split; [reflexivity|]. exact Hcheck.
Qed.

(** X3. [GridLayoutProvider.newLayoutManager] does not record the manager
    it creates: whether it throws or returns, the provider objects (and with
    them [_lastLayoutManager]), the wrap-grid managers and the dimension
    objects are the ones the call started from. *)
Theorem GridLayoutProvider_newLayoutManager_records_nothing
    st this p g renderWindowSize isHorizontal cachedLayouts :
  providers st !! this = Some p ->
  gridFields p = Some g ->
  exists st',
    ((exists manager,
        GridLayoutProvider_newLayoutManager this renderWindowSize isHorizontal cachedLayouts st
          = Return (GridRef manager) st') \/
     GridLayoutProvider_newLayoutManager this renderWindowSize isHorizontal cachedLayouts st
       = Throw NotSupportedException st') /\
    providers st' = providers st /\
    wrapGridManagers st' = wrapGridManagers st /\
    dimensions st' = dimensions st.
Proof.
  intros Hp Hg. unfold GridLayoutProvider_newLayoutManager.
  destruct (truthy isHorizontal).
  - exists st. split; [now right|]. repeat split.
  - rewrite (bind_Return _ _ _ _ _ (gridField_eq _ _ _ _ _getColumnSpanForIndex Hp Hg)).
    rewrite (bind_Return _ _ _ _ _ (gridField_eq _ _ _ _ _setMaxColumnSpan Hp Hg)).
    rewrite (bind_Return _ _ _ _ _ (callback_eq _ _)).
    unfold bind, new_GridLayoutManager, ret. simpl.
    eexists. split; [left; eexists; reflexivity|]. repeat split.
Qed.

(** X4. Through a [BaseLayoutProvider] reference, a horizontal manager is
    refused by grid providers only: on a grid provider the call throws and
    leaves the store alone; on a plain provider it returns a new wrap-grid
    manager that carries the horizontal flag, and the provider remembers
    it. *)
Theorem newLayoutManager_horizontal_by_class
    st this p renderWindowSize cachedLayouts :
  providers st !! this = Some p ->
  match gridFields p with
  | Some _ =>
      newLayoutManager this renderWindowSize (Some true) cachedLayouts st =
        Throw NotSupportedException st
  | None =>
      exists manager st' p',
        newLayoutManager this renderWindowSize (Some true) cachedLayouts st =
          Return (WrapGridRef manager) st' /\
        wrapGridManagers st !! manager = None /\
        wrapGridManagers st' !! manager =
          Some (mkWrapGridLayoutManager this renderWindowSize (Some true) cachedLayouts []) /\
        providers st' !! this = Some p' /\
        _lastLayoutManager p' = Some manager
  end.
Proof.
  intros Hp. unfold newLayoutManager.
  rewrite (bind_Return _ _ _ _ _ (field_eq _ _ _ gridFields Hp)).
  destruct (gridFields p) as [g|] eqn:Hg; [reflexivity|].
  pose proof (LayoutProvider_newLayoutManager_eq st this p renderWindowSize (Some true)
                cachedLayouts Hp) as Hnew.
  cbv zeta in Hnew.
  eexists _, _, _. split; [exact Hnew|]. simpl.
  split; [now apply lookup_ge_None_2|]. split; [apply lookup_snoc_new|].
  split.
  - apply list_lookup_insert_eq. exact (lookup_lt_Some _ _ _ Hp).
  - reflexivity.
Qed.

Lemma replicate_snoc_cons {A : Type} (n : nat) (x : A) (l : list A) :
  replicate n x ++ x :: l = x :: replicate n x ++ l.
Proof. induction n as [|n IH]; simpl; [reflexivity|]. now rewrite IH. Qed.

(** One check of a caller's dimension by a provider whose callback computes
    [v] for this type and index: the answer, and the store the next check
    starts from. *)
Lemma checkDimensionDiscrepancy_constant_step
    fuel st this p f type index dimension t0 d0 v :
  well_formed st this p ->
  _setLayoutForType p = Injected f ->
  dimensions st !! _tempDim p = Some t0 ->
  dimensions st !! dimension = Some d0 ->
  dimension <> _tempDim p ->
  (forall d w, (f type d index w).1 = v) ->
  exists st',
    checkDimensionDiscrepancy (S fuel) this dimension type index st =
      Return (strict_neq (height d0) (height v) || strict_neq (width d0) (width v)) st' /\
    well_formed st' this p /\
    dimensions st' !! _tempDim p = Some v /\
    dimensions st' !! dimension = Some d0 /\
    wrapGridManagers st' = hinted v (_lastLayoutManager p) (wrapGridManagers st).
Proof.
  intros Hwf Hf Ht Hd Hne Hdet.
  pose proof (checkDimensionDiscrepancy_eq fuel st this p f type index dimension t0 d0
                Hwf Hf Ht Hd) as Heq.
  cbv zeta in Heq. unfold computed in Heq. rewrite !Hdet in Heq.
  rewrite decide_False in Heq by exact Hne.
  pose proof (lookup_lt_Some _ _ _ Ht) as Hlt.
  assert (Ht' : <[_tempDim p := v]> (dimensions st) !! _tempDim p = Some v)
    by now apply list_lookup_insert_eq.
  eexists. split; [exact Heq|].
  destruct Hwf as (Hp & _ & Hm).
  split; [|split; [|split]].
  - split; [exact Hp|]. split; simpl.
    + rewrite Ht'. now eexists.
    + destruct (_lastLayoutManager p) as [manager|] eqn:Hlast; [|exact I].
      now apply hinted_lookup_is_Some.
  - exact Ht'.
  - simpl. rewrite list_lookup_insert_ne by congruence. exact Hd.
  - reflexivity.
Qed.

(** X5. Checking the same caller-owned dimension [n] times against a
    callback that computes [v] for this type and index gives the same answer
    [n] times, leaves the dimension as it was, and calls [setMaxBounds] on
    the remembered manager once per check: the manager has received [n]
    hints [v] more than before.  A provider without a manager changes no
    manager. *)
Theorem checkDimensionDiscrepancy_repeated
    n fuel st this p f type index dimension t0 d0 v :
  well_formed st this p ->
  _setLayoutForType p = Injected f ->
  dimensions st !! _tempDim p = Some t0 ->
  dimensions st !! dimension = Some d0 ->
  dimension <> _tempDim p ->
  (forall d w, (f type d index w).1 = v) ->
  exists st',
    checkRepeatedly n (S fuel) this dimension type index st =
      Return (replicate n (strict_neq (height d0) (height v)
                           || strict_neq (width d0) (width v))) st' /\
    dimensions st' !! dimension = Some d0 /\
    match _lastLayoutManager p with
    | Some manager =>
        exists m,
          wrapGridManagers st !! manager = Some m /\
          wrapGridManagers st' !! manager =
            Some (mkWrapGridLayoutManager (wg_layoutProvider m) (wg_renderWindowSize m)
                    (wg_isHorizontal m) (wg_cachedLayouts m)
                    (replicate n v ++ wg_maxBounds m))
    | None => wrapGridManagers st' = wrapGridManagers st
    end.
Proof.
  intros Hwf Hf Ht Hd Hne Hdet. revert st t0 Hwf Ht Hd.
  induction n as [|n IH]; intros st t0 Hwf Ht Hd.
  - exists st. split; [reflexivity|]. split; [exact Hd|].
    destruct Hwf as (_ & _ & Hm).
    destruct (_lastLayoutManager p) as [manager|]; [|reflexivity].
    destruct Hm as [m Hm]. exists m. split; [exact Hm|]. rewrite Hm. now destruct m.
  - destruct (checkDimensionDiscrepancy_constant_step fuel st this p f type index
                dimension t0 d0 v Hwf Hf Ht Hd Hne Hdet)
      as (st1 & Heq & Hwf1 & Ht1 & Hd1 & Hms1).
    destruct (IH st1 v Hwf1 Ht1 Hd1) as (st2 & Hrest & Hd2 & Hms2).
    exists st2. split; [|split; [exact Hd2|]].
    + cbn [checkRepeatedly replicate].
      rewrite (bind_Return _ _ _ _ _ Heq).
      rewrite (bind_Return _ _ _ _ _ Hrest).
      reflexivity.
    + destruct Hwf as (_ & _ & Hm).
      destruct (_lastLayoutManager p) as [manager|]; simpl in Hms1.
      * destruct Hm as [m Hm]. destruct Hms2 as (m1 & Hm1 & Hm2).
        exists m. split; [exact Hm|].
        assert (Hrec : wrapGridManagers st1 !! manager = Some (recordMaxBounds v m)).
        { rewrite Hms1, list_lookup_alter, decide_True by reflexivity.
          exact (f_equal (fmap (recordMaxBounds v)) Hm). }
        assert (m1 = recordMaxBounds v m) by congruence. subst m1.
        rewrite Hm2. simpl. now rewrite replicate_snoc_cons.
      * congruence.
Qed.

End Composition.

(** ** The stores a caller can reach *)

Section Reachable.
Context {W : Type} {Layout : Type}.
Implicit Types (st : @State W Layout) (p : @LayoutProvider W).

(** *** Quiet computations *)

Lemma quiet_ret {A : Type} (a : A) : quiet (@ret W Layout A a).
Proof. intros st. simpl. auto. Qed.

Lemma quiet_throw {A : Type} e : quiet (@throw W Layout A e).
Proof. intros st. simpl. auto. Qed.

Lemma quiet_stuck {A : Type} : quiet (@stuck W Layout A).
Proof. intros st. exact I. Qed.

Lemma quiet_bind {A B : Type} (c : @M W Layout A) (k : A -> @M W Layout B) :
  quiet c -> (forall a, quiet (k a)) -> quiet (bind c k).
Proof.
  intros Hc Hk st. unfold bind. specialize (Hc st).
  destruct (c st) as [a st1|e st1| |]; try exact I; [|exact Hc].
  specialize (Hk a st1). destruct (k a st1) as [b st2|e st2| |]; try exact I;
    destruct Hc as (Hp & Hd & Hm), Hk as (Hp' & Hd' & Hm'); repeat split; congruence.
Qed.

Lemma quiet_of_option {A : Type} (o : option A) : quiet (@of_option W Layout A o).
Proof. destruct o; [apply quiet_ret|apply quiet_stuck]. Qed.

Lemma quiet_gets {A : Type} (proj : State -> A) : quiet (@gets W Layout A proj).
Proof. intros st. simpl. auto. Qed.

Lemma quiet_callback {A : Type} (f : W -> A * W) : quiet (@callback W Layout A f).
Proof. intros st. unfold callback. destruct (f (world st)). simpl. auto. Qed.

Lemma quiet_field {A : Type} this (proj : LayoutProvider -> A) :
  quiet (@field W Layout A this proj).
Proof.
  unfold field, getProvider. apply quiet_bind.
  - apply quiet_bind; [apply quiet_gets|intros; apply quiet_of_option].
  - intros; apply quiet_ret.
Qed.

Lemma quiet_gridField {A : Type} this (proj : GridLayoutProviderFields -> A) :
  quiet (@gridField W Layout A this proj).
Proof.
  unfold gridField. apply quiet_bind; [apply quiet_field|].
  intros [g|]; [apply quiet_ret|apply quiet_stuck].
Qed.

Lemma quiet_readDimension dim : quiet (@readDimension W Layout dim).
Proof.
  unfold readDimension. apply quiet_bind; [apply quiet_gets|intros; apply quiet_of_option].
Qed.

Lemma quiet_writeDimension dim d : quiet (@writeDimension W Layout dim d).
Proof.
  unfold writeDimension. apply quiet_bind; [apply quiet_readDimension|].
  intros _ st. simpl. rewrite length_insert. auto.
Qed.

Lemma quiet_setMaxBounds manager itemDim : quiet (@setMaxBounds W Layout manager itemDim).
Proof.
  unfold setMaxBounds. apply quiet_bind; [apply quiet_readDimension|]. intros d.
  apply quiet_bind; [apply quiet_gets|]. intros ms.
  apply quiet_bind; [apply quiet_of_option|]. intros m st. simpl.
  rewrite length_insert. auto.
Qed.

Lemma quiet_setComputedLayout fuel this type dimension index :
  quiet (@setComputedLayout W Layout fuel this type dimension index).
Proof.
  revert this. induction fuel as [|fuel IH]; intros this; [intros st; exact I|].
  simpl. apply quiet_bind; [apply quiet_field|]. intros [f|self]; [|apply IH].
  apply quiet_bind; [apply quiet_readDimension|]. intros d.
  apply quiet_bind; [apply quiet_callback|]. intros d'. apply quiet_writeDimension.
Qed.

Lemma quiet_checkDimensionDiscrepancy fuel this dimension type index :
  quiet (@checkDimensionDiscrepancy W Layout fuel this dimension type index).
Proof.
  unfold checkDimensionDiscrepancy.
  apply quiet_bind; [apply quiet_field|]. intros tempDim.
  apply quiet_bind; [apply quiet_setComputedLayout|]. intros _.
  apply quiet_bind; [apply quiet_field|]. intros dimension2.
  apply quiet_bind; [apply quiet_field|]. intros last.
  apply quiet_bind; [destruct last; [apply quiet_setMaxBounds|apply quiet_ret]|]. intros _.
  apply quiet_bind; [apply quiet_readDimension|]. intros d1.
  apply quiet_bind; [apply quiet_readDimension|]. intros d2.
  apply quiet_ret.
Qed.

Lemma quiet_getLayoutTypeForIndex this index :
  quiet (@getLayoutTypeForIndex W Layout this index).
Proof.
  unfold getLayoutTypeForIndex. apply quiet_bind; [apply quiet_field|].
  intros f. apply quiet_callback.
Qed.

Lemma quiet_setMaxColumnSpan this : quiet (@setMaxColumnSpan W Layout this).
Proof.
  unfold setMaxColumnSpan. apply quiet_bind; [apply quiet_gridField|].
  intros f. apply quiet_callback.
Qed.

Lemma quiet_getColumnSpanForIndex this index :
  quiet (@getColumnSpanForIndex W Layout this index).
Proof.
  unfold getColumnSpanForIndex. apply quiet_bind; [apply quiet_gridField|].
  intros f. apply quiet_callback.
Qed.

Lemma quiet_setHeightForIndex this height index :
  quiet (@setHeightForIndex W Layout this height index).
Proof.
  unfold setHeightForIndex. apply quiet_bind; [apply quiet_gridField|].
  intros f. apply quiet_callback.
Qed.

Lemma quiet_GridLayoutProvider_newLayoutManager this renderWindowSize isHorizontal cachedLayouts :
  quiet (@GridLayoutProvider_newLayoutManager W Layout this renderWindowSize isHorizontal
           cachedLayouts).
Proof.
  unfold GridLayoutProvider_newLayoutManager.
  destruct (truthy isHorizontal); [apply quiet_throw|].
  apply quiet_bind; [apply quiet_gridField|]. intros getSpan.
  apply quiet_bind; [apply quiet_gridField|]. intros setMax.
  apply quiet_bind; [apply quiet_callback|]. intros maxSpan.
  apply quiet_bind; [|intros; apply quiet_ret].
  intros st. simpl. auto.
Qed.

(** *** One call *)

Lemma evolves_refl st : evolves st st.
Proof. split; [reflexivity|]. split; [reflexivity|]. now left. Qed.

Lemma evolves_quiet {A : Type} (c : @M W Layout A) st :
  quiet c -> evolves st (store_after (c st) st).
Proof.
  intros Hc. specialize (Hc st).
  destruct (c st) as [a st'|e st'| |]; simpl; try apply evolves_refl;
    destruct Hc as (Hp & Hd & Hm); (split; [lia|]); (split; [lia|]); now left.
Qed.

Lemma field_missing {A : Type} st this (proj : LayoutProvider -> A) :
  providers st !! this = None -> field this proj st = Stuck.
Proof. intros Hp. unfold field, getProvider, bind, gets. simpl. now rewrite Hp. Qed.

Lemma evolves_newLayoutManager st this renderWindowSize isHorizontal cachedLayouts :
  evolves st (store_after (newLayoutManager this renderWindowSize isHorizontal cachedLayouts st) st).
Proof.
  unfold newLayoutManager.
  destruct (providers st !! this) as [p|] eqn:Hp.
  2:{ unfold bind at 1. rewrite (field_missing _ _ _ Hp). apply evolves_refl. }
  rewrite (bind_Return _ _ _ _ _ (field_eq _ _ _ gridFields Hp)).
  destruct (gridFields p) as [g|] eqn:Hg.
  - apply evolves_quiet, quiet_GridLayoutProvider_newLayoutManager.
  - rewrite (LayoutProvider_newLayoutManager_eq st this p _ _ _ Hp). unfold evolves. simpl.
    split; [reflexivity|]. split; [rewrite length_app; simpl; lia|].
    right; right. exists this, p. split; [exact Hp|]. split; [exact Hg|].
    split; [rewrite length_app; simpl; lia|reflexivity].
Qed.

Lemma evolves_perform fuel (c : @Call W Layout) st : evolves st (perform fuel c st).
Proof.
  destruct c; cbn [perform].
  - rewrite new_LayoutProvider_eq. unfold evolves. simpl.
    split; [rewrite length_app; lia|]. split; [reflexivity|].
    right; left. eexists. split; [reflexivity|]. simpl.
    split; [reflexivity|]. split; [rewrite length_app; simpl; lia|].
    split; reflexivity.
  - rewrite new_GridLayoutProvider_eq. unfold evolves. simpl.
    split; [rewrite length_app; lia|]. split; [reflexivity|].
    right; left. eexists. split; [reflexivity|]. simpl.
    split; [reflexivity|]. split; [rewrite length_app; simpl; lia|].
    split; [reflexivity|]. split; [reflexivity|]. now eexists.
  - unfold evolves. simpl. split; [rewrite length_app; lia|]. split; [reflexivity|]. now left.
  - apply evolves_quiet, quiet_writeDimension.
  - unfold evolves. simpl. split; [reflexivity|]. split; [reflexivity|]. now left.
  - apply evolves_newLayoutManager.
  - apply evolves_quiet, quiet_getLayoutTypeForIndex.
  - apply evolves_quiet, quiet_setComputedLayout.
  - apply evolves_quiet, quiet_checkDimensionDiscrepancy.
  - apply evolves_quiet, quiet_setMaxColumnSpan.
  - apply evolves_quiet, quiet_getColumnSpanForIndex.
  - apply evolves_quiet, quiet_setHeightForIndex.
Qed.

(** *** The invariant *)

Lemma store_inv_empty (w : W) : store_inv (@empty_store W Layout w).
Proof. intros this p Hp. destruct this; discriminate. Qed.

Lemma store_inv_evolves st st' : store_inv st -> evolves st st' -> store_inv st'.
Proof.
  intros Hinv (Hdims & Hms & Hshape) this p Hp.
  destruct Hshape as [Hsame|[(q & Hps & Htemp & Hfresh & Hlast & Hslot)
                             |(this0 & p0 & Hp0 & Hgrid0 & Hfresh & Hps)]].
  - rewrite Hsame in Hp. destruct (Hinv this p Hp) as (H1 & H2 & H3 & H4 & H5).
    split; [lia|]. split; [destruct (_lastLayoutManager p); [lia|exact I]|].
    split; [exact H3|]. split; [exact H4|].
    intros that q Hq. rewrite Hsame in Hq. now apply H5.
  - assert (Hold : forall i x, providers st !! i = Some x ->
               providers st' !! i = Some x /\ _tempDim x < length (dimensions st)).
    { intros i x Hx. split; [rewrite Hps; now apply lookup_app_l_Some|].
      now destruct (Hinv i x Hx). }
    assert (Hcases : forall i x, providers st' !! i = Some x ->
               providers st !! i = Some x \/ (i = length (providers st) /\ x = q)).
    { intros i x Hx. rewrite Hps in Hx. apply lookup_app_Some in Hx.
      destruct Hx as [Hx|[Hge Hx]]; [now left|right].
      destruct (i - length (providers st)) as [|k] eqn:Hk; simpl in Hx; [|discriminate].
      split; [lia|congruence]. }
    destruct (Hcases this p Hp) as [Hp'|[-> ->]].
    + destruct (Hinv this p Hp') as (H1 & H2 & H3 & H4 & H5).
      split; [lia|]. split; [destruct (_lastLayoutManager p); [lia|exact I]|].
      split; [exact H3|]. split; [exact H4|].
      intros that x Hx Heq. destruct (Hcases that x Hx) as [Hx'|[-> ->]].
      * now apply (H5 that x).
      * rewrite Htemp in Heq. lia.
    + split; [lia|]. rewrite Hlast. split; [exact I|]. split; [exact Hslot|].
      split; [reflexivity|].
      intros that x Hx Heq. destruct (Hcases that x Hx) as [Hx'|[-> ->]]; [|reflexivity].
      destruct (Hold that x Hx') as (_ & Hlt). rewrite Htemp in Heq. lia.
  - pose proof (lookup_lt_Some _ _ _ Hp0) as Hlt0.
    assert (Hcases : forall i x, providers st' !! i = Some x ->
               exists y, providers st !! i = Some y /\ _tempDim x = _tempDim y /\
                 _setLayoutForType x = _setLayoutForType y /\ gridFields x = gridFields y /\
                 ((i <> this0 /\ x = y) \/
                  (i = this0 /\ y = p0 /\
                   _lastLayoutManager x = Some (length (wrapGridManagers st))))).
    { intros i x Hx. rewrite Hps in Hx. destruct (decide (i = this0)) as [->|Hne].
      - rewrite list_lookup_insert_eq in Hx by exact Hlt0.
        injection Hx as <-. exists p0. split; [exact Hp0|]. repeat split. now right.
      - rewrite list_lookup_insert_ne in Hx by congruence.
        exists x. split; [exact Hx|]. repeat split. now left. }
    destruct (Hcases this p Hp) as (y & Hy & Ht & Hs & Hg & Hcase).
    destruct (Hinv this y Hy) as (H1 & H2 & H3 & H4 & H5).
    split; [lia|]. split; [|split; [|split]].
    + destruct Hcase as [(_ & ->)|(_ & _ & ->)]; [|lia].
      destruct (_lastLayoutManager y); [lia|exact I].
    + unfold slot_as_constructed in *. now rewrite Hs, Hg.
    + destruct Hcase as [(_ & ->)|(_ & -> & _)]; [exact H4|].
      rewrite Hg, Hgrid0. intros [? ?]. discriminate.
    + intros that x Hx Heq.
      destruct (Hcases that x Hx) as (z & Hz & Htz & _).
      apply (H5 that z Hz). congruence.
Qed.

Lemma run_snoc fuel (cs : list (@Call W Layout)) c st :
  run fuel (cs ++ [c]) st = perform fuel c (run fuel cs st).
Proof. unfold run. now rewrite fold_left_app. Qed.

Lemma store_inv_run fuel (cs : list (@Call W Layout)) st :
  store_inv st -> store_inv (run fuel cs st).
Proof.
  revert st. induction cs as [|c cs IH]; intros st Hinv; [exact Hinv|].
  simpl. apply IH. eapply store_inv_evolves; [exact Hinv|apply evolves_perform].
Qed.

(** *** What holds in every store a caller can reach *)

(** X6. In every store a caller reaches from the empty one, by any calls in
    any order, each provider's scratch buffer is an allocated dimension
    object, the manager it remembers (if any) is an allocated manager, and no
    other provider uses the same scratch buffer. *)
Theorem reachable_store_well_formed fuel (cs : list (@Call W Layout)) (w : W) this p :
  providers (run fuel cs (empty_store w)) !! this = Some p ->
  well_formed (run fuel cs (empty_store w)) this p /\
  (forall that q,
     providers (run fuel cs (empty_store w)) !! that = Some q ->
     that <> this -> _tempDim q <> _tempDim p).
Proof.
  intros Hp.
  pose proof (store_inv_run fuel cs _ (store_inv_empty w)) as Hinv.
  destruct (Hinv this p Hp) as (H1 & H2 & _ & _ & H5).
  split.
  - split; [exact Hp|]. split; [now apply lookup_lt_is_Some|].
    destruct (_lastLayoutManager p); [now apply lookup_lt_is_Some|exact I].
  - intros that q Hq Hne Heq. apply Hne. now apply (H5 that q).
Qed.

Lemma perform_keeps_identity fuel (c : @Call W Layout) st this p :
  providers st !! this = Some p ->
  exists p',
    providers (perform fuel c st) !! this = Some p' /\
    _setLayoutForType p' = _setLayoutForType p /\
    _getLayoutTypeForIndex p' = _getLayoutTypeForIndex p /\
    _tempDim p' = _tempDim p /\
    gridFields p' = gridFields p.
Proof.
  intros Hp. destruct (evolves_perform fuel c st) as (_ & _ & Hshape).
  destruct Hshape as [Hsame|[(q & Hps & _)|(this0 & p0 & Hp0 & _ & _ & Hps)]].
  - exists p. rewrite Hsame. now repeat split.
  - exists p. rewrite Hps. split; [now apply lookup_app_l_Some|]. now repeat split.
  - rewrite Hps. destruct (decide (this0 = this)) as [->|Hne].
    + rewrite list_lookup_insert_eq by exact (lookup_lt_Some _ _ _ Hp).
      eexists. split; [reflexivity|]. assert (p0 = p) by congruence. subst p0.
      now repeat split.
    + rewrite list_lookup_insert_ne by exact Hne. exists p. now repeat split.
Qed.

Lemma perform_keeps_provider fuel (c : @Call W Layout) st this p :
  is_newLayoutManager c = false ->
  providers st !! this = Some p ->
  providers (perform fuel c st) !! this = Some p.
Proof.
  intros Hc Hp.
  assert (Hq : forall A (m : @M W Layout A), quiet m ->
            providers (store_after (m st) st) !! this = Some p).
  { intros A m Hm. specialize (Hm st). destruct (m st) as [a st'|e st'| |]; simpl;
      try exact Hp; destruct Hm as (-> & _); exact Hp. }
  destruct c; try discriminate; cbn [perform].
  - rewrite new_LayoutProvider_eq. simpl. now apply lookup_app_l_Some.
  - rewrite new_GridLayoutProvider_eq. simpl. now apply lookup_app_l_Some.
  - exact Hp.
  - apply Hq, quiet_writeDimension.
  - exact Hp.
  - apply Hq, quiet_getLayoutTypeForIndex.
  - apply Hq, quiet_setComputedLayout.
  - apply Hq, quiet_checkDimensionDiscrepancy.
  - apply Hq, quiet_setMaxColumnSpan.
  - apply Hq, quiet_getColumnSpanForIndex.
  - apply Hq, quiet_setHeightForIndex.
Qed.

(** X7. What a provider was constructed with stays: after any calls the
    object still holds the same callbacks, the same scratch buffer and the
    same grid fields; only [_lastLayoutManager] can differ.  And when none
    of the calls is [newLayoutManager], the provider object is unchanged
    altogether: no other method writes a field of a provider. *)
Theorem provider_fields_are_fixed fuel (cs : list (@Call W Layout)) st this p :
  providers st !! this = Some p ->
  (exists p',
     providers (run fuel cs st) !! this = Some p' /\
     _setLayoutForType p' = _setLayoutForType p /\
     _getLayoutTypeForIndex p' = _getLayoutTypeForIndex p /\
     _tempDim p' = _tempDim p /\
     gridFields p' = gridFields p) /\
  (forallb (fun c => negb (is_newLayoutManager c)) cs = true ->
   providers (run fuel cs st) !! this = Some p).
Proof.
  intros Hp. split.
  - revert st p Hp. induction cs as [|c cs IH]; intros st p Hp.
    + exists p. now repeat split.
    + destruct (perform_keeps_identity fuel c st this p Hp) as (p1 & Hp1 & E1 & E2 & E3 & E4).
      destruct (IH _ p1 Hp1) as (p' & Hp' & F1 & F2 & F3 & F4).
      exists p'. split; [exact Hp'|]. repeat split; congruence.
  - revert st Hp. induction cs as [|c cs IH]; intros st Hp Hall; [exact Hp|].
    simpl in Hall. apply andb_true_iff in Hall. destruct Hall as (Hc & Hall).
    apply negb_true_iff in Hc.
    simpl. apply IH; [|exact Hall]. now apply perform_keeps_provider.
Qed.

(** X8. In every reachable store the class of a provider decides its
    discrepancy check: on a plain provider the check of an allocated
    dimension returns, for every positive stack budget; on a grid provider
    it overflows for every stack budget, at any time, and the grid provider
    remembers no manager whatever managers it has created. *)
Theorem reachable_check_by_class
    fuel (cs : list (@Call W Layout)) (w : W) this p dimension d0 type index :
  providers (run fuel cs (empty_store w)) !! this = Some p ->
  dimensions (run fuel cs (empty_store w)) !! dimension = Some d0 ->
  match gridFields p with
  | None =>
      forall budget, exists b st',
        checkDimensionDiscrepancy (S budget) this dimension type index
          (run fuel cs (empty_store w)) = Return b st'
  | Some _ =>
      _lastLayoutManager p = None /\
      forall budget,
        checkDimensionDiscrepancy budget this dimension type index
          (run fuel cs (empty_store w)) = StackOverflow
  end.
Proof.
  intros Hp Hd.
  pose proof (store_inv_run fuel cs _ (store_inv_empty w)) as Hinv.
  destruct (Hinv this p Hp) as (H1 & _ & Hslot & Hgrid & _).
  destruct (reachable_store_well_formed fuel cs w this p Hp) as (Hwf & _).
  unfold slot_as_constructed in Hslot.
  destruct (gridFields p) as [g|] eqn:Hg.
  - split; [apply Hgrid; now eexists|]. intros budget.
    destruct (_setLayoutForType p) as [f|self] eqn:Hf; [discriminate|].
    destruct Hslot as (-> & _).
    now apply (checkDimensionDiscrepancy_Forward budget _ this p).
  - intros budget.
    destruct (_setLayoutForType p) as [f|self] eqn:Hf.
    2:{ destruct Hslot as (_ & [? ?]). discriminate. }
    apply lookup_lt_is_Some in H1. destruct H1 as [t0 Ht].
    pose proof (checkDimensionDiscrepancy_eq budget _ this p f type index dimension t0 d0
                  Hwf Hf Ht Hd) as Heq.
    cbv zeta in Heq. eexists _, _. exact Heq.
Qed.

(** X9. Providers do not interfere: in every reachable store, a
    discrepancy check on one plain provider leaves the scratch buffer of
    every other provider, and all provider objects, as they were. *)
Theorem reachable_check_leaves_other_scratch_buffers
    fuel (cs : list (@Call W Layout)) (w : W) this p that q dimension d0 type index budget :
  providers (run fuel cs (empty_store w)) !! this = Some p ->
  providers (run fuel cs (empty_store w)) !! that = Some q ->
  that <> this ->
  gridFields p = None ->
  dimensions (run fuel cs (empty_store w)) !! dimension = Some d0 ->
  exists b st',
    checkDimensionDiscrepancy (S budget) this dimension type index
      (run fuel cs (empty_store w)) = Return b st' /\
    dimensions st' !! _tempDim q = dimensions (run fuel cs (empty_store w)) !! _tempDim q /\
    providers st' = providers (run fuel cs (empty_store w)).
Proof.
  intros Hp Hq Hne Hg Hd.
  pose proof (store_inv_run fuel cs _ (store_inv_empty w)) as Hinv.
  destruct (Hinv this p Hp) as (H1 & _ & Hslot & _ & _).
  destruct (reachable_store_well_formed fuel cs w this p Hp) as (Hwf & Hdistinct).
  unfold slot_as_constructed in Hslot.
  destruct (_setLayoutForType p) as [f|self] eqn:Hf.
  2:{ destruct Hslot as (_ & [? ?]). congruence. }
  apply lookup_lt_is_Some in H1. destruct H1 as [t0 Ht].
  pose proof (checkDimensionDiscrepancy_eq budget _ this p f type index dimension t0 d0
                Hwf Hf Ht Hd) as Heq.
  cbv zeta in Heq. eexists _, _. split; [exact Heq|]. simpl. split; [|reflexivity].
  apply list_lookup_insert_ne. intros Heq'. now apply (Hdistinct that q Hq Hne).
Qed.

End Reachable.

(** ** The scenarios of the specification, run *)

Section Runs.
Import Scenario.
Local Open Scope Z_scope.

Local Abbreviation header := (TString "header").
Local Abbreviation row := (TString "row").


(** The manager created last receives the recomputed footprint of a row,
    which agrees with the caller's dimension; and a manager created now
    receives it on the next check. *)
Lemma checkDimensionDiscrepancy_propagates_bounds_witness :
  (exists b st',
     checkDimensionDiscrepancy 1 0 cached row 4 store_with_manager = Return b st' /\
     (b = strict_neq 50 50 || strict_neq 320 320 \/ cached = scratch) /\
     exists m,
       wrapGridManagers store_with_manager !! 0%nat = Some m /\
       wrapGridManagers st' !! 0%nat = Some (recordMaxBounds (mkDimension 50 320) m) /\
       forall other, other <> 0%nat ->
         wrapGridManagers st' !! other = wrapGridManagers store_with_manager !! other) /\
  (forall renderWindowSize isHorizontal cachedLayouts,
   exists manager st1 b st2,
     LayoutProvider_newLayoutManager 0 renderWindowSize isHorizontal cachedLayouts
       store_with_manager = Return (WrapGridRef manager) st1 /\
     wrapGridManagers store_with_manager !! manager = None /\
     checkDimensionDiscrepancy 1 0 cached row 4 st1 = Return b st2 /\
     wrapGridManagers st2 !! manager =
       Some (mkWrapGridLayoutManager 0 renderWindowSize isHorizontal cachedLayouts
               [mkDimension 50 320])).
Proof.
  apply (checkDimensionDiscrepancy_propagates_bounds 0 store_with_manager 0%nat
           (provider compute (Some 0%nat)) compute row 4 cached
           (mkDimension 0 0) (mkDimension 50 320)).
  - split; [reflexivity|]. split; eexists; reflexivity.
  - reflexivity.
  - reflexivity.
  - reflexivity.
Defined.

Lemma checkDimensionDiscrepancy_frame_witness :
  exists b st',
    checkDimensionDiscrepancy 1 0 cached header 3 (store compute) = Return b st' /\
    dimensions st' !! cached = Some (mkDimension 50 320) /\
    (forall other, other <> scratch ->
       dimensions st' !! other = dimensions (store compute) !! other) /\
    providers st' = providers (store compute).
Proof.
  apply (checkDimensionDiscrepancy_frame 0 (store compute) 0%nat
           (provider compute None) compute header 3 cached
           (mkDimension 0 0) (mkDimension 50 320)).
  - split; [reflexivity|]. split; [eexists; reflexivity|exact I].
  - reflexivity.
  - reflexivity.
  - reflexivity.
  - vm_compute. discriminate.
Defined.

(** The scratch buffer is handed by reference to the dimension callback and
    to the manager.  Were it passed back as the dimension to check, the
    object would be overwritten and compared with itself. *)
Example checkDimensionDiscrepancy_on_the_scratch_buffer :
  exists st',
    checkDimensionDiscrepancy 1 0 scratch header 3 (store compute) = Return false st' /\
    dimensions (store compute) !! scratch = Some (mkDimension 0 0) /\
    dimensions st' !! scratch = Some (mkDimension 100 320).
Proof. eexists. repeat split. Qed.

(** C5, the counterexample: [setComputedLayout] hands the scratch buffer
    itself to the caller's callback, so the caller can keep that object and
    supply it as the dimension to check.  The check then overwrites its own
    argument: it held [{0, 0}] before the call and holds [{100, 320}]
    after. *)
Lemma checkDimensionDiscrepancy_overwrites_scratch_argument :
  exists b st',
    checkDimensionDiscrepancy 1 0 scratch header 3 (store compute) = Return b st' /\
    dimensions (store compute) !! scratch = Some (mkDimension 0 0) /\
    dimensions st' !! scratch = Some (mkDimension 100 320) /\
    dimensions st' !! scratch <> dimensions (store compute) !! scratch.
Proof.
  eexists _, _. split; [vm_compute; reflexivity|]. split; [reflexivity|].
  split; [reflexivity|]. vm_compute. discriminate.
Qed.

(** C7, the counterexample: the dimension callback of the scenario is
    deterministic (its result depends on the type alone), and the check of a
    header against the dimension [{50, 320}] returns [true]. *)
Lemma checkDimensionDiscrepancy_deterministic_callback_true :
  (forall type d d' index w w',
     (compute type d index w).1 = (compute type d' index w').1) /\
  (exists st',
     checkDimensionDiscrepancy 1 0 cached header 3 (store compute) = Return true st') /\
  (forall st',
     checkDimensionDiscrepancy 1 0 cached header 3 (store compute) <> Return false st').
Proof.
  split; [reflexivity|]. split.
  - eexists. vm_compute. reflexivity.
  - intros st'. vm_compute. discriminate.
Qed.

Lemma checkDimensionDiscrepancy_false_when_consistent_witness :
  (exists st',
     checkDimensionDiscrepancy 1 0 cached row 4 (store compute) = Return false st') /\
  (exists st',
     checkRepeatedly 3 1 0 cached row 4 (store compute) =
       Return [false; false; false] st').
Proof.
  apply (checkDimensionDiscrepancy_false_when_consistent 3 0 (store compute) 0%nat
           (provider compute None) compute row 4 cached
           (mkDimension 0 0) (mkDimension 50 320)).
  - split; [reflexivity|]. split; [eexists; reflexivity|exact I].
  - reflexivity.
  - reflexivity.
  - reflexivity.
  - intros d w. reflexivity.
Defined.

(** A callback that assigns the width for index 3 only.  The first check
    after construction, of [{50, 320}] as the row 4, compares the width 320
    with the 0 the buffer was created with.  After a check of the header 3
    has left [{100, 320}] in the buffer, the same check of the row 4 compares
    the width with that 320. *)
Lemma scratch_buffer_is_never_reset_witness :
  (exists this st1 b st2,
     new_LayoutProvider classify compute_width_at_3 (store compute) = Return this st1 /\
     checkDimensionDiscrepancy 1 this cached row 4 st1 = Return b st2 /\
     (b = true <-> 50 <> 50 \/ 320 <> 0)) /\
  (exists b st',
     checkDimensionDiscrepancy 1 0 cached row 4
       (store_with_scratch compute_width_at_3 (mkDimension 100 320)) = Return b st' /\
     (b = true <-> 50 <> 50 \/ 320 <> 320) /\
     dimensions st' !! scratch = Some (mkDimension 50 320)) /\
  (exists b1 st1 b2 st2,
     checkDimensionDiscrepancy 1 0 cached header 3 (store compute_width_at_3) =
       Return b1 st1 /\
     checkDimensionDiscrepancy 1 0 cached row 4 st1 = Return b2 st2 /\
     (b2 = true <-> 50 <> 50 \/ 320 <> 320)).
Proof.
  destruct (scratch_buffer_is_never_reset (Layout := unit) compute_width_at_3)
    as (_ & Hfirst & Hlater & Htwo).
  split; [|split].
  - apply (Hfirst classify 0%nat (store compute) cached (mkDimension 50 320) row 4).
    + reflexivity.
    + reflexivity.
  - apply (Hlater 0%nat
             (store_with_scratch compute_width_at_3 (mkDimension 100 320))
             0%nat (provider compute_width_at_3 None)
             row 4 cached (mkDimension 100 320) (mkDimension 50 320)).
    + split; [reflexivity|]. split; [eexists; reflexivity|exact I].
    + reflexivity.
    + reflexivity.
    + reflexivity.
    + vm_compute. discriminate.
    + reflexivity.
  - apply (Htwo 0%nat (store compute_width_at_3) 0%nat (provider compute_width_at_3 None)
             header 3 cached (mkDimension 50 320) row 4 cached (mkDimension 50 320)
             (mkDimension 0 0)).
    + split; [reflexivity|]. split; [eexists; reflexivity|exact I].
    + reflexivity.
    + reflexivity.
    + reflexivity.
    + reflexivity.
    + vm_compute. discriminate.
    + reflexivity.
Defined.

Lemma getLayoutTypeForIndex_delegates_witness :
  getLayoutTypeForIndex 0 3 (store compute) = Return header (store compute) /\
  exists token st1 st2,
    getLayoutTypeForIndex 0 3 (store compute) = Return token st1 /\
    getLayoutTypeForIndex 0 3 st1 = Return token st2.
Proof.
  destruct (getLayoutTypeForIndex_delegates (store compute) 0%nat (provider compute None) 3
              eq_refl) as (Hcall & Htwice).
  split; [exact Hcall|]. apply Htwice. intros w w'. reflexivity.
Defined.

(** The grid scenario: maximum span 4, every item spanning 2. *)
Lemma GridLayoutProvider_pass_throughs_witness :
  setMaxColumnSpan 0 gridStore = Return 4 gridStore /\
  (forall index, getColumnSpanForIndex 0 index gridStore = Return 2 gridStore) /\
  (forall height index, setHeightForIndex 0 height index gridStore = Return height gridStore).
Proof.
  exact (GridLayoutProvider_pass_throughs gridStore 0%nat gridProvider gridFieldsExample
           eq_refl eq_refl).
Defined.

(** A manager built while the caller's maximum span is 4 keeps 4 when the
    caller moves to 6. *)
Lemma GridLayoutProvider_newLayoutManager_max_span_witness :
  exists manager st1 m,
    GridLayoutProvider_newLayoutManager 0 cached None None gridStore =
      Return (GridRef manager) st1 /\
    world st1 = 4 /\
    gridManagers st1 !! manager = Some m /\
    gridManagers gridStore !! manager = None /\
    g_maxColumnSpan m = 4 /\
    forall w2,
      exists st2,
        setMaxColumnSpan 0 (set_world w2 st1) = Return w2 st2 /\
        gridManagers st2 !! manager = Some m.
Proof.
  exact (GridLayoutProvider_newLayoutManager_max_span gridStore 0%nat gridProvider
           gridFieldsExample cached None None eq_refl eq_refl eq_refl).
Defined.

(** The horizontal grid request on the grid scenario. *)
Example newLayoutManager_horizontal_grid :
  newLayoutManager 0 cached (Some true) None gridStore = Throw NotSupportedException gridStore.
Proof. reflexivity. Qed.

(** The discrepancy check on the grid scenario, with a budget of a thousand
    frames. *)
Example checkDimensionDiscrepancy_grid_scenario :
  checkDimensionDiscrepancy 1000 0 cached header 3 gridStore = StackOverflow.
Proof. vm_compute. reflexivity. Qed.

End Runs.

(** ** The compositions and the session, run *)

Section SessionRuns.
Import Scenario.
Local Open Scope Z_scope.

Local Abbreviation header := (TString "header").

(** Two managers, the second horizontal with cached layouts; the check of a
    header reaches the second only. *)
Lemma newLayoutManager_replaces_tracked_manager_witness :
  exists m1 m2 st1 st2 b st3,
    LayoutProvider_newLayoutManager 0 cached None None (store compute) =
      Return (WrapGridRef m1) st1 /\
    LayoutProvider_newLayoutManager 0 cached (Some true) (Some [tt]) st1 =
      Return (WrapGridRef m2) st2 /\
    m1 <> m2 /\
    checkDimensionDiscrepancy 1 0 cached header 3 st2 = Return b st3 /\
    wrapGridManagers st3 !! m1 = Some (mkWrapGridLayoutManager 0 cached None None []) /\
    wrapGridManagers st3 !! m2 =
      Some (mkWrapGridLayoutManager 0 cached (Some true) (Some [tt])
              [mkDimension 100 320]).
Proof.
  apply (newLayoutManager_replaces_tracked_manager 0 (store compute) 0%nat
           (provider compute None) compute header 3 cached
           (mkDimension 0 0) (mkDimension 50 320) cached None None cached (Some true)
           (Some [tt])).
  - split; [reflexivity|]. split; [eexists; reflexivity|exact I].
  - reflexivity.
  - reflexivity.
  - reflexivity.
Defined.

(** The caller's [{50, 320}] is filled as a header and then checked. *)
Lemma setComputedLayout_then_check_false_witness :
  exists st1 st2,
    setComputedLayout 1 0 header cached 3 (store compute) = Return tt st1 /\
    dimensions st1 !! cached = Some (mkDimension 100 320) /\
    (forall other, other <> cached ->
       dimensions st1 !! other = dimensions (store compute) !! other) /\
    world st1 = 0 /\
    wrapGridManagers st1 = wrapGridManagers (store compute) /\
    gridManagers st1 = gridManagers (store compute) /\
    providers st1 = providers (store compute) /\
    checkDimensionDiscrepancy 1 0 cached header 3 st1 = Return false st2.
Proof.
  apply (setComputedLayout_then_check_false 0 (store compute) 0%nat
           (provider compute None) compute header 3 cached
           (mkDimension 0 0) (mkDimension 50 320) (mkDimension 100 320)).
  - split; [reflexivity|]. split; [eexists; reflexivity|exact I].
  - reflexivity.
  - reflexivity.
  - reflexivity.
  - intros d w. reflexivity.
Defined.

Lemma GridLayoutProvider_newLayoutManager_records_nothing_witness :
  exists st',
    ((exists manager,
        GridLayoutProvider_newLayoutManager 0 cached None None gridStore
          = Return (GridRef manager) st') \/
     GridLayoutProvider_newLayoutManager 0 cached None None gridStore
       = Throw NotSupportedException st') /\
    providers st' = providers gridStore /\
    wrapGridManagers st' = wrapGridManagers gridStore /\
    dimensions st' = dimensions gridStore.
Proof.
  exact (GridLayoutProvider_newLayoutManager_records_nothing gridStore 0%nat gridProvider
           gridFieldsExample cached None None eq_refl eq_refl).
Defined.

(** The horizontal request on the plain provider and on the grid provider. *)
Lemma newLayoutManager_horizontal_by_class_witness :
  (exists manager st' p',
     newLayoutManager 0 cached (Some true) None (store compute) =
       Return (WrapGridRef manager) st' /\
     wrapGridManagers (store compute) !! manager = None /\
     wrapGridManagers st' !! manager =
       Some (mkWrapGridLayoutManager 0 cached (Some true) None []) /\
     providers st' !! 0%nat = Some p' /\
     _lastLayoutManager p' = Some manager) /\
  newLayoutManager 0 cached (Some true) None gridStore = Throw NotSupportedException gridStore.
Proof.
  split.
  - exact (newLayoutManager_horizontal_by_class (store compute) 0%nat (provider compute None)
             cached None eq_refl).
  - exact (newLayoutManager_horizontal_by_class gridStore 0%nat gridProvider cached None
             eq_refl).
Defined.

(** Three checks of the caller's [{50, 320}] as a header: three times
    [true], three hints. *)
Lemma checkDimensionDiscrepancy_repeated_witness :
  exists st',
    checkRepeatedly 3 1 0 cached header 3 store_with_manager =
      Return (replicate 3 (strict_neq 50 100 || strict_neq 320 320)) st' /\
    dimensions st' !! cached = Some (mkDimension 50 320) /\
    exists m,
      wrapGridManagers store_with_manager !! 0%nat = Some m /\
      wrapGridManagers st' !! 0%nat =
        Some (mkWrapGridLayoutManager (wg_layoutProvider m) (wg_renderWindowSize m)
                (wg_isHorizontal m) (wg_cachedLayouts m)
                (replicate 3 (mkDimension 100 320) ++ wg_maxBounds m)).
Proof.
  apply (checkDimensionDiscrepancy_repeated 3 0 store_with_manager 0%nat
           (provider compute (Some 0%nat)) compute header 3 cached
           (mkDimension 0 0) (mkDimension 50 320) (mkDimension 100 320)).
  - split; [reflexivity|]. split; eexists; reflexivity.
  - reflexivity.
  - reflexivity.
  - reflexivity.
  - vm_compute. discriminate.
  - intros d w. reflexivity.
Defined.

(** The plain provider of the session, at the end of it. *)
Lemma reachable_store_well_formed_witness :
  well_formed Session.reached 0%nat (provider compute (Some 0%nat)) /\
  (forall that q,
     providers Session.reached !! that = Some q ->
     that <> 0%nat -> _tempDim q <> 0%nat).
Proof.
  exact (reachable_store_well_formed 5 Session.calls 4 0%nat (provider compute (Some 0%nat))
           eq_refl).
Defined.

(** The provider of the scenario through the session: with the manager
    creations the fields it was constructed with are kept; without them the
    object is the same at the end. *)
Lemma provider_fields_are_fixed_witness :
  (exists p',
     providers (run 5 Session.calls (store compute)) !! 0%nat = Some p' /\
     _setLayoutForType p' = Injected compute /\
     _getLayoutTypeForIndex p' = classify /\
     _tempDim p' = scratch /\
     gridFields p' = None) /\
  providers (run 5 Session.calls_without_managers (store compute)) !! 0%nat =
    Some (provider compute None).
Proof.
  split.
  - exact (proj1 (provider_fields_are_fixed 5 Session.calls (store compute) 0%nat
                    (provider compute None) eq_refl)).
  - apply (proj2 (provider_fields_are_fixed 5 Session.calls_without_managers (store compute)
                    0%nat (provider compute None) eq_refl)).
    reflexivity.
Defined.

(** At the end of the session the plain provider checks, the grid provider
    overflows. *)
Lemma reachable_check_by_class_witness :
  (forall budget, exists b st',
     checkDimensionDiscrepancy (S budget) 0 Session.caller_dimension header 3 Session.reached
       = Return b st') /\
  (_lastLayoutManager Session.gridProvider1 = None /\
   forall budget,
     checkDimensionDiscrepancy budget 1 Session.caller_dimension header 3 Session.reached
       = StackOverflow).
Proof.
  split.
  - exact (reachable_check_by_class 5 Session.calls 4 0%nat (provider compute (Some 0%nat))
             Session.caller_dimension (mkDimension 50 320) header 3 eq_refl eq_refl).
  - exact (reachable_check_by_class 5 Session.calls 4 1%nat Session.gridProvider1
             Session.caller_dimension (mkDimension 50 320) header 3 eq_refl eq_refl).
Defined.

Lemma reachable_check_leaves_other_scratch_buffers_witness :
  exists b st',
    checkDimensionDiscrepancy 1 0 Session.caller_dimension header 3 Session.reached
      = Return b st' /\
    dimensions st' !! 1%nat = dimensions Session.reached !! 1%nat /\
    providers st' = providers Session.reached.
Proof.
  apply (reachable_check_leaves_other_scratch_buffers 5 Session.calls 4 0%nat
           (provider compute (Some 0%nat)) 1%nat Session.gridProvider1
           Session.caller_dimension (mkDimension 50 320) header 3 0%nat).
  - reflexivity.
  - reflexivity.
  - vm_compute. discriminate.
  - reflexivity.
  - reflexivity.
Defined.

End SessionRuns.
